(** * Survey pipeline: encoder and analysis scripts

    A shallow embedding of [presentation/create_clean_csv.py],
    [presentation/analysis_2_spearman.py] and
    [presentation/analysis_3_kruskal_fisher.py], followed by the properties
    of the encoder and of the analyzer that the specification states.

    Layout: the Python values the scripts handle (text, integers, floats,
    exceptions), then one module per source file, then the theorems. *)

From Stdlib Require Import ZArith NArith List Bool String Ascii Floats Lia.
From stdpp Require Import gmap list option pretty.

Set Warnings "-inexact-float".
Local Open Scope Z_scope.

(** ** Python values *)

(** A Python [str] is a sequence of Unicode code points. *)
Abbreviation str := (list N) (only parsing).

(** An ASCII literal of the source, as code points. *)
Definition py (s : string) : str := map N_of_ascii (list_ascii_of_string s).

Definition EN_DASH : N := 8211.        (* U+2013, in the age and floor labels *)
Definition WARNING_SIGN : N := 9888.   (* U+26A0, in the caveats *)
Definition RIGHT_ARROW : N := 8594.    (* U+2192 *)
Definition CHECK_MARK : N := 10003.    (* U+2713 *)
Definition SUPERSCRIPT_TWO : N := 178. (* U+00B2, in "Chi²" *)
Definition MULT_SIGN : N := 215.       (* U+00D7 *)

(** Exceptions the scripts can raise. *)
Inductive exn : Type :=
| KeyError (key : str)
| AttributeError
| ValueError
| IndexError
| TypeError
| LinAlgError.   (* numpy.linalg.LinAlgError *)

Inductive result (A : Type) : Type :=
| Ok (a : A)
| Raise (e : exn).
Arguments Ok {A} a.
Arguments Raise {A} e.

Definition bind {A B} (r : result A) (k : A -> result B) : result B :=
  match r with
  | Ok a => k a
  | Raise e => Raise e
  end.

Declare Scope py_scope.
Delimit Scope py_scope with py.
Notation "x <- r ;; k" := (bind r (fun x => k))
  (at level 100, r at next level, right associativity) : py_scope.

(** What the interpreter brings and the repository does not: the Unicode
    character database beyond ASCII, the limit on the length of a decimal
    integer literal ([sys.get_int_max_str_digits()], 0 for none) and the
    formatting of floats ([format(x, spec)]).  ASCII characters never reach
    the database: the functions below decide them directly. *)
Class PyRuntime : Type := {
  unicode_isspace : N -> bool;
  (* lower-casing of the character at a position of a text: the mapping of
     capital sigma looks at its neighbours *)
  unicode_lower : str -> nat -> N -> str;
  unicode_isdigit : N -> bool;
  (* decimal digit value, 0 to 9 *)
  unicode_decimal : N -> option N;
  int_max_str_digits : nat;
  format_float : string -> float -> str;
}.

Definition is_ascii (c : N) : bool := (c <? 128)%N.

(** [Py_UNICODE_ISSPACE] on ASCII: TAB..CR, FS..US and the space. *)
Definition ascii_isspace (c : N) : bool :=
  ((9 <=? c) && (c <=? 13) || (28 <=? c) && (c <=? 32))%N.

Definition ascii_isdigit (c : N) : bool := ((48 <=? c) && (c <=? 57))%N.

Definition ascii_lower (c : N) : N :=
  if ((65 <=? c) && (c <=? 90))%N then (c + 32)%N else c.

Section Text.
Context `{PyRuntime}.

Definition isspace_char (c : N) : bool :=
  if is_ascii c then ascii_isspace c else unicode_isspace c.

Fixpoint lstrip (s : str) : str :=
  match s with
  | c :: s' => if isspace_char c then lstrip s' else s
  | [] => []
  end.

Definition rstrip (s : str) : str := rev (lstrip (rev s)).

(** [s.strip()] *)
Definition strip (s : str) : str := rstrip (lstrip s).

Definition lower_char (s : str) (i : nat) (c : N) : str :=
  if is_ascii c then [ascii_lower c] else unicode_lower s i c.

(** [s.lower()] *)
Definition lower (s : str) : str := concat (imap (lower_char s) s).

Definition isdigit_char (c : N) : bool :=
  if is_ascii c then ascii_isdigit c else unicode_isdigit c.

(** [s.isdigit()]: at least one character, and all of them digits. *)
Definition isdigit (s : str) : bool :=
  match s with
  | [] => false
  | _ => forallb isdigit_char s
  end.

(** [int(s)], base 10.  The text is first brought to ASCII (a Unicode space
    becomes a space, a Unicode decimal its ASCII digit, anything else '?'),
    then read as: white space, an optional sign, digits with single
    underscores between them, white space. *)
Definition to_ascii_char (c : N) : N :=
  if (c <? 127)%N then c
  else if unicode_isspace c then 32%N
  else match unicode_decimal c with
       | Some d => if (d <? 10)%N then (48 + d)%N else 63%N
       | None => 63%N
       end.

Definition to_ascii (s : str) : str :=
  if forallb is_ascii s then s else map to_ascii_char s.

(* the C locale's isspace, used by the integer parser *)
Definition c_isspace (c : N) : bool :=
  ((9 <=? c) && (c <=? 13) || (c =? 32))%N.

Fixpoint c_lstrip (s : str) : str :=
  match s with
  | c :: s' => if c_isspace c then c_lstrip s' else s
  | [] => []
  end.

Definition c_strip (s : str) : str := rev (c_lstrip (rev (c_lstrip s))).

(* digits so far [acc], their count [ndigits]; [after_digit] tells whether
   the previous character was a digit, the only place for an underscore
   and for the end *)
Fixpoint int_digits (after_digit : bool) (s : str) (acc : N) (ndigits : nat)
  : option (N * nat) :=
  match s with
  | [] => if after_digit then Some (acc, ndigits) else None
  | c :: s' =>
      if (c =? 95)%N then
        if after_digit then int_digits false s' acc ndigits else None
      else if ascii_isdigit c then
        int_digits true s' (acc * 10 + (c - 48))%N (S ndigits)
      else None
  end.

Definition too_many_digits (ndigits : nat) : bool :=
  (0 <? int_max_str_digits)%nat && (int_max_str_digits <? ndigits)%nat.

Definition py_int (s : str) : result Z :=
  let s := c_strip (to_ascii s) in
  let '(negative, body) :=
    match s with
    | 43%N :: b => (false, b)
    | 45%N :: b => (true, b)
    | _ => (false, s)
    end in
  match int_digits false body 0%N 0%nat with
  | Some (v, nd) =>
      if too_many_digits nd then Raise ValueError
      else Ok (if negative then - Z.of_N v else Z.of_N v)
  | None => Raise ValueError
  end.

(** [str(n)] for an integer. *)
Definition str_of_int (n : Z) : str := py (pretty n).

End Text.

(** ** create_clean_csv.py *)

Module create_clean_csv.

(** *** Encoding maps *)

Definition Q7_MAP : gmap str Z :=
  <[py "not at all" := 1]> (
  <[py "neutral" := 2]> (
  <[py "slightly distracting" := 3]> (
  <[py "moderately distracting" := 4]> (
  <[py "highly distracting" := 5]> (
  <[py "severely affects rest quality" := 6]> ∅))))).

Definition Q11_MAP : gmap str Z :=
  <[py "improves significantly" := 1]> (
  <[py "neutral" := 2]> (
  <[py "reduces slightly" := 3]> (
  <[py "reduces significantly" := 4]> ∅))).

Definition AGE_MAP : gmap str Z :=
  <[py "18 " ++ EN_DASH :: py " 25" := 1]> (
  <[py "26 " ++ EN_DASH :: py " 40" := 2]> (
  <[py "41 " ++ EN_DASH :: py " 59" := 3]> (
  <[py "60+" := 4]> ∅))).

Definition DURATION_MAP : gmap str Z :=
  <[py "less than 1 year" := 1]> (
  <[py "1 - 5 years" := 2]> (
  <[py "5 - 10 years" := 3]> (
  <[py "more than 10 years" := 4]> ∅))).

Definition FLOOR_MAP : gmap str Z :=
  <[py "low rise (floors 1" ++ EN_DASH :: py "5)" := 1]> (
  <[py "mid rise (floors 6" ++ EN_DASH :: py "10)" := 2]> (
  <[py "high rise (floors 11+)" := 3]> ∅)).

Definition COMMUNITY_MAP : gmap str Z :=
  <[py "no" := 0]> (
  <[py "neutral" := 1]> (
  <[py "maybe" := 1]> (     (* treat maybe as neutral for ordinal purposes *)
  <[py "yes" := 2]> (
  <[py "yes, i feel a strong connection." := 2]> (
  <[py "yes, very strong" := 2]> ∅))))).

Definition NOISE_SPIKE_MAP : gmap str Z :=
  <[py "no" := 0]> ∅.       (* anything that is not "no" is 1 *)

(** *** Column headers of the raw export *)

Definition COL_SITE := py "12. Which site do you live in?".
Definition COL_AGE := py "1. Which age group do you fall into?".
Definition COL_DURATION := py "2. How long have you lived in this estate?".
Definition COL_FLOOR := py "3. Which floor range is your unit located on?".
Definition COL_Q4 :=
  py "4. On a normal day, how would you rate the noise level from 1 to 10?".
Definition COL_Q5 :=
  py "5. What are the main noise sources you notice most often?".
Definition COL_Q6 :=
  py "6. Does the noise ever spike during specific hours / events?".
Definition COL_Q7 :=
  py "7. How does the noise level affect your ability to concentrate (studying, working)?".
Definition COL_Q8 :=
  py "8. How do you find the quality of air in your living area?".
Definition COL_Q9 :=
  py "9. Convenience: When there are big festivals or religious practices, events etc, how does it affect your routine?".
Definition COL_Q10 :=
  py "10. Does living so close to these cultural/religious hubs make you feel more connected to the community?".
Definition COL_Q11 :=
  py "11. Overall, would you say living here improves or reduces your Quality of Life?".

(** One row as [csv.DictReader] yields it: header text to cell.  A row
    shorter than the header has [None] in the cells it lacks. *)
Abbreviation RawRecord := (gmap str (option str)) (only parsing).

(** One row of [rows_out]; [None] is the missing marker. *)
Record CleanRecord : Type := {
  respondent_id : Z;
  site : str;
  age_group : str;
  age_numeric : option Z;
  residency_duration : str;
  residency_numeric : option Z;
  floor_level : str;
  floor_numeric : option Z;
  Q4_noise_rating : option Z;
  Q5_noise_sources : str;
  Q6_noise_spike : Z;
  Q6_spike_raw : str;
  Q7_concentration_raw : str;
  Q7_concentration : option Z;
  Q8_air_quality : option Z;
  Q9_convenience_raw : str;
  Q10_community_raw : str;
  Q10_community : option Z;
  Q11_QoL_raw : str;
  Q11_QoL : option Z;
}.

(** [list(rows_out[0].keys())] *)
Definition CleanRecord_keys : list string :=
  [ "respondent_id"; "site"; "age_group"; "age_numeric";
    "residency_duration"; "residency_numeric"; "floor_level";
    "floor_numeric"; "Q4_noise_rating"; "Q5_noise_sources";
    "Q6_noise_spike"; "Q6_spike_raw"; "Q7_concentration_raw";
    "Q7_concentration"; "Q8_air_quality"; "Q9_convenience_raw";
    "Q10_community_raw"; "Q10_community"; "Q11_QoL_raw"; "Q11_QoL" ]%string.

Section Encoder.
Context `{PyRuntime}.
Local Open Scope py_scope.

(** [mapping.get(val.strip().lower(), default)] *)
Definition encode (val : str) (mapping : gmap str Z) (default : option Z)
  : option Z :=
  match mapping !! lower (strip val) with
  | Some code => Some code
  | None => default
  end.

Definition noise_spike (val : str) : Z :=
  if decide (lower (strip val) = py "no") then 0 else 1.

(** [row[key].strip()] *)
Definition cell (row : RawRecord) (key : str) : result str :=
  match row !! key with
  | None => Raise (KeyError key)
  | Some None => Raise AttributeError
  | Some (Some v) => Ok (strip v)
  end.

(** [int(q) if q.isdigit() else None] *)
Definition rating (q : str) : result (option Z) :=
  if isdigit q then (v <- py_int q ;; Ok (Some v)) else Ok None.

(** The body of the loop of [main]: the record appended for [row]. *)
Definition encode_row (idx : Z) (row : RawRecord) : result CleanRecord :=
  site <- cell row COL_SITE ;;
  age_raw <- cell row COL_AGE ;;
  dur_raw <- cell row COL_DURATION ;;
  floor_raw <- cell row COL_FLOOR ;;
  q4 <- cell row COL_Q4 ;;
  q5 <- cell row COL_Q5 ;;
  q6_raw <- cell row COL_Q6 ;;
  q7_raw <- cell row COL_Q7 ;;
  q8 <- cell row COL_Q8 ;;
  q9_raw <- cell row COL_Q9 ;;
  q10_raw <- cell row COL_Q10 ;;
  q11_raw <- cell row COL_Q11 ;;
  q4_rating <- rating q4 ;;
  q8_rating <- rating q8 ;;
  Ok {| respondent_id := idx;
        site := site;
        age_group := age_raw;
        age_numeric := encode age_raw AGE_MAP None;
        residency_duration := dur_raw;
        residency_numeric := encode dur_raw DURATION_MAP None;
        floor_level := floor_raw;
        floor_numeric := encode floor_raw FLOOR_MAP None;
        Q4_noise_rating := q4_rating;
        Q5_noise_sources := q5;
        Q6_noise_spike := noise_spike q6_raw;
        Q6_spike_raw := q6_raw;
        Q7_concentration_raw := q7_raw;
        Q7_concentration := encode q7_raw Q7_MAP None;
        Q8_air_quality := q8_rating;
        Q9_convenience_raw := q9_raw;
        Q10_community_raw := q10_raw;
        Q10_community := encode q10_raw COMMUNITY_MAP None;
        Q11_QoL_raw := q11_raw;
        Q11_QoL := encode q11_raw Q11_MAP None |}.

(** [for idx, row in enumerate(reader, start=idx)]: the rows appended. *)
Fixpoint encode_rows (idx : Z) (reader : list RawRecord)
  : result (list CleanRecord) :=
  match reader with
  | [] => Ok []
  | row :: reader' =>
      r <- encode_row idx row ;;
      rows_out <- encode_rows (idx + 1) reader' ;;
      Ok (r :: rows_out)
  end.

(** [main], from the rows the reader yields to the header and the rows
    handed to the writer.  The sanity report printed after the file is
    written is left out. *)
Definition main (reader : list RawRecord)
  : result (list string * list CleanRecord) :=
  rows_out <- encode_rows 1 reader ;;
  fieldnames <- match rows_out with
                | [] => Raise IndexError
                | _ :: _ => Ok CleanRecord_keys
                end ;;
  Ok (fieldnames, rows_out).

End Encoder.

End create_clean_csv.

(** ** The analysis scripts *)

(** The statistics come from [scipy.stats], which is not part of the
    repository: a script is the tree of its calls into scipy and of the
    lines it prints, and it is run against any implementation of the
    calls.  The figures are not modelled: of the scatter plots, the fit of
    the trend line is kept (see [scatter_spearman]); the box plots and the
    heat maps, drawn after the tests they show, are left out. *)
Inductive call : Type :=
| spearmanr (x y : list Z)
| kruskal (samples : list (list Z))
| mannwhitneyu (x y : list Z) (alternative : string)
| fisher_exact (table : list (list Z))
| chi2_contingency (observed : list (list Z)).

(** What a call returns: (statistic, p-value), and for the chi-square test
    (chi2, p, dof, expected). *)
Definition reply (c : call) : Type :=
  match c with
  | chi2_contingency _ => (float * float * Z * list (list float))%type
  | _ => (float * float)%type
  end.

Inductive script (A : Type) : Type :=
| Ret (a : A)
| Throw (e : exn)
| Call (c : call) (k : reply c -> script A)
| Print (line : str) (k : script A).
Arguments Ret {A} a.
Arguments Throw {A} e.
Arguments Call {A} c k.
Arguments Print {A} line k.

Fixpoint sbind {A B} (s : script A) (f : A -> script B) : script B :=
  match s with
  | Ret a => f a
  | Throw e => Throw e
  | Call c k => Call c (fun r => sbind (k r) f)
  | Print l k => Print l (sbind k f)
  end.

Declare Scope script_scope.
Delimit Scope script_scope with script.
Notation "x <- s ;; k" := (sbind s (fun x => k))
  (at level 100, s at next level, right associativity) : script_scope.
Notation "s ;; k" := (sbind s (fun _ => k))
  (at level 100, right associativity) : script_scope.

Definition print (line : str) : script unit := Print line (Ret tt).
Definition scipy (c : call) : script (reply c) := Call c Ret.

(** A computation that returns or raises, as a step of a script. *)
Definition raising {A} (r : result A) : script A :=
  match r with
  | Ok a => Ret a
  | Raise e => Throw e
  end.

(** numpy, as far as the scripts compute with it: [np.polyfit(x, y, deg)] on
    two columns of the table, a missing cell being a NaN.  It returns the
    coefficients of the fitted polynomial or raises. *)
Class Numpy : Type := {
  polyfit : list (option Z) -> list (option Z) -> Z -> result (list float);
}.

(** [for x in l: body x], in order; the first exception ends the loop. *)
Fixpoint for_each {A B} (l : list A) (body : A -> script B) : script (list B) :=
  match l with
  | [] => Ret []
  | x :: l' => (y <- body x ;; ys <- for_each l' body ;; Ret (y :: ys))%script
  end.

(** An implementation of scipy: every call returns or raises. *)
Definition Scipy : Type := forall c : call, result (reply c).

(** A run: the lines printed, the calls made, the value or the exception. *)
Record run_of (A : Type) : Type := {
  stdout : list str;
  called : list call;
  outcome : result A;
}.
Arguments stdout {A} r.
Arguments called {A} r.
Arguments outcome {A} r.

Fixpoint run {A} (sp : Scipy) (s : script A) : run_of A :=
  match s with
  | Ret a => {| stdout := []; called := []; outcome := Ok a |}
  | Throw e => {| stdout := []; called := []; outcome := Raise e |}
  | Call c k =>
      match sp c with
      | Ok r =>
          let rest := run sp (k r) in
          {| stdout := stdout rest; called := c :: called rest;
             outcome := outcome rest |}
      | Raise e => {| stdout := []; called := [c]; outcome := Raise e |}
      end
  | Print l k =>
      let rest := run sp k in
      {| stdout := l :: stdout rest; called := called rest;
         outcome := outcome rest |}
  end.

(** The first call a script makes, if it makes one. *)
Fixpoint first_call {A} (s : script A) : option call :=
  match s with
  | Ret _ | Throw _ => None
  | Call c _ => Some c
  | Print _ k => first_call k
  end.

(** The cleaned table as the scripts load it: one record per respondent, a
    missing cell is [None]. *)
Abbreviation DataFrame := (list create_clean_csv.CleanRecord) (only parsing).

(** [len(x)] *)
Definition len {A} (l : list A) : Z := Z.of_nat (length l).

(** [f"{s:<w}"] *)
Definition ljust (w : nat) (s : str) : str := s ++ repeat 32%N (w - length s).
(** [f"{s:>w}"] *)
Definition rjust (w : nat) (s : str) : str := repeat 32%N (w - length s) ++ s.

(** The numeric columns of the cleaned table. *)
Inductive column : Type :=
| col_age_numeric | col_residency_numeric | col_floor_numeric
| col_Q4_noise_rating | col_Q6_noise_spike | col_Q7_concentration
| col_Q8_air_quality | col_Q10_community | col_Q11_QoL.

Definition get (c : column) (r : create_clean_csv.CleanRecord) : option Z :=
  match c with
  | col_age_numeric => create_clean_csv.age_numeric r
  | col_residency_numeric => create_clean_csv.residency_numeric r
  | col_floor_numeric => create_clean_csv.floor_numeric r
  | col_Q4_noise_rating => create_clean_csv.Q4_noise_rating r
  | col_Q6_noise_spike => Some (create_clean_csv.Q6_noise_spike r)
  | col_Q7_concentration => create_clean_csv.Q7_concentration r
  | col_Q8_air_quality => create_clean_csv.Q8_air_quality r
  | col_Q10_community => create_clean_csv.Q10_community r
  | col_Q11_QoL => create_clean_csv.Q11_QoL r
  end.

(** [df[[x, y]].dropna()]: the rows where both cells are present. *)
Definition dropna2 (df : DataFrame) (x y : column) : list (Z * Z) :=
  omap (fun r => match get x r, get y r with
                 | Some a, Some b => Some (a, b)
                 | _, _ => None
                 end) df.

(** ** analysis_2_spearman.py *)

Module analysis_2_spearman.
Import create_clean_csv.

Definition RHO : N := 961.   (* U+03C1 *)

(** (xvar, yvar, title, fname) *)
Definition PAIRS : list (column * column * str * str) :=
  [ (col_Q4_noise_rating, col_Q7_concentration,
     py "Chain 1" ++ RIGHT_ARROW :: py "2: Noise Level vs Concentration Impact",
     py "spearman_Q4_Q7.png");
    (col_Q4_noise_rating, col_Q11_QoL,
     py "Chain 2" ++ RIGHT_ARROW :: py "3: Noise Level vs Quality of Life",
     py "spearman_Q4_Q11.png");
    (col_Q8_air_quality, col_Q11_QoL,
     py "Supporting: Air Quality vs Quality of Life",
     py "spearman_Q8_Q11.png");
    (col_Q4_noise_rating, col_Q8_air_quality,
     py "Co-location: Noise Level vs Air Quality",
     py "spearman_Q4_Q8.png") ].

Section Script.
Context `{PyRuntime} `{Numpy}.
Local Open Scope float_scope.

(** Short plain-English interpretation; [n] defaults to 20 in the source
    and is always given by the caller. *)
Definition interpret (rho p : float) (n : Z) : str :=
  let sig := p <? 0.05 in
  let strength :=
    if 0.7 <=? abs rho then py "strong"
    else if 0.4 <=? abs rho then py "moderate"
    else py "weak" in
  let direction := if 0 <? rho then py "positive" else py "negative" in
  let sig_str :=
    if sig then py "statistically significant"
    else py "not statistically significant" in
  let caveat :=
    if negb sig
    then py " (" ++ WARNING_SIGN :: py " n=" ++ str_of_int n
         ++ py ": treat as indicative)"
    else [] in
  strength ++ py " " ++ direction ++ py " correlation, " ++ sig_str ++ caveat.

Local Open Scope script_scope.

(** The scatter plot of a pair, [df] being the table the script has loaded.
    [x] and [y] are the two whole columns of
    the table, missing cells included.  Of the drawing, what is computed
    from the table is kept: the trend line [z], fitted by [np.polyfit];
    an exception it raises is not caught.  The figure itself (the points,
    the line, the annotation with [rho] and [p], the file written) is not
    modelled; once it is saved the name of the file is printed. *)
Definition scatter_spearman (df : DataFrame) (xvar yvar : column)
  (title fname : str) (rho p : float) : script unit :=
  let x := map (get xvar) df in
  let y := map (get yvar) df in
  z <- raising (polyfit x y 1) ;;
  print (py "  " ++ CHECK_MARK :: py " " ++ fname).

(** One turn of the loop over [PAIRS]: the line of the table, the tuple
    appended to [results], the scatter plot. *)
Definition analyse_pair (df : DataFrame) (pair : column * column * str * str)
  : script (column * column * str * str * float * float * str) :=
  let '(xvar, yvar, title, fname) := pair in
  let sub := dropna2 df xvar yvar in
  r <- scipy (spearmanr (map fst sub) (map snd sub)) ;;
  let '(rho, p) := r in
  let interp := interpret rho p (len sub) in
  print (ljust 35 title ++ py " " ++ format_float ">+7.3f" rho ++ py " "
         ++ format_float ">8.4f" p ++ py "  " ++ interp) ;;
  scatter_spearman df xvar yvar title fname rho p ;;
  Ret (xvar, yvar, title, fname, rho, p, interp).

(** One turn of the loop of the detailed narrative. *)
Definition narrate (res : column * column * str * str * float * float * str)
  : script unit :=
  let '(xvar, yvar, title, fname, rho, p, interp) := res in
  print (10%N :: py "[" ++ title ++ py "]") ;;
  print (py "  " ++ RHO :: py " = " ++ format_float "+.3f" rho ++ py ", p = "
         ++ format_float ".4f" p) ;;
  print (py "  " ++ RIGHT_ARROW :: py " " ++ interp) ;;
  if (p <? 0.05)%float
  then print (py "  " ++ RIGHT_ARROW ::
              py " This pair supports a statistically significant association.")
  else print (py "  " ++ RIGHT_ARROW ::
              py " Result is indicative only; do NOT over-claim given n=20.").

(** The script, from the loaded table [df]. *)
Definition analysis_2 (df : DataFrame)
  : script (list (column * column * str * str * float * float * str)) :=
  print (repeat 61%N 65) ;;
  print (py "SPEARMAN'S RANK CORRELATION RESULTS") ;;
  print (repeat 61%N 65) ;;
  print (ljust 35 (py "Pair") ++ py " " ++ rjust 7 [RHO] ++ py " "
         ++ rjust 8 (py "p") ++ py "  Interpretation") ;;
  print (repeat 45%N 90) ;;
  results <- for_each PAIRS (analyse_pair df) ;;
  print (repeat 45%N 90) ;;
  print (10%N :: py "Note: n=20 overall; subgroups may be smaller after dropna.") ;;
  print (py "All Spearman scatter plots saved to ./charts/") ;;
  print (10%N :: repeat 61%N 65) ;;
  print (py "DETAILED FINDINGS") ;;
  print (repeat 61%N 65) ;;
  for_each results narrate ;;
  Ret results.

End Script.

End analysis_2_spearman.

(** ** analysis_3_kruskal_fisher.py *)

Module analysis_3_kruskal_fisher.
Import create_clean_csv.

Definition EM_DASH : N := 8212.   (* U+2014 *)
Definition BOX_LINE : N := 9472.  (* U+2500 *)

(** A [dict] from labels to samples, in insertion order. *)
Abbreviation groups := (list (str * list Z)) (only parsing).

(** [d.values()] *)
Definition values (d : groups) : list (list Z) := map snd d.

(** [d[key]] *)
Fixpoint getitem (d : groups) (key : str) : script (list Z) :=
  match d with
  | [] => Throw (KeyError key)
  | (k, v) :: d' => if decide (k = key) then Ret v else getitem d' key
  end.

(** [df[df[by] == label][outcome].dropna().tolist()] *)
Definition group_values (df : DataFrame) (by_ : CleanRecord -> str)
  (label : str) (outcome : column) : list Z :=
  omap (get outcome) (filter (fun r => by_ r = label) df).

(** [itertools.combinations(l, 2)] *)
Fixpoint combinations2 {A} (l : list A) : list (A * A) :=
  match l with
  | [] => []
  | x :: l' => map (pair x) l' ++ combinations2 l'
  end.

Definition floor_order : list str :=
  [ py "Low Rise (Floors 1" ++ EN_DASH :: py "5)";
    py "Mid Rise (Floors 6" ++ EN_DASH :: py "10)";
    py "High Rise (Floors 11+)" ].

Definition site_order : list str :=
  [ py "Waterloo Centre"; py "Cheng Yan Court"; py "Albert Centre";
    py "Bras Basah Complex" ].

(** The floor groups, the empty ones removed. *)
Definition floor_groups (df : DataFrame) : groups :=
  let floor_groups :=
    map (fun fl => (fl, group_values df floor_level fl col_Q4_noise_rating))
        floor_order in
  filter (fun kv => snd kv <> []) floor_groups.

Definition site_noise_groups (df : DataFrame) : groups :=
  map (fun s => (s, group_values df site s col_Q4_noise_rating)) site_order.

Definition site_qol_groups (df : DataFrame) : groups :=
  map (fun s => (s, group_values df site s col_Q11_QoL)) site_order.

Definition pairs : list (str * str) := combinations2 site_order.

(** [sum(len(v) for v in d.values())] *)
Definition total (d : groups) : Z := foldr Z.add 0 (map len (values d)).

(** *** Crosstabs *)

Definition q10_order : list Z := [0; 1; 2].
Definition q10_labels : list (Z * str) :=
  [ (0, py "No"); (1, py "Maybe/Neutral"); (2, py "Yes") ].
Definition q11_order : list Z := [1; 2; 3; 4].
Definition q11_labels : list (Z * str) :=
  [ (1, py "Improves sig."); (2, py "Neutral"); (3, py "Reduces sl.");
    (4, py "Reduces sig.") ].
Definition age_labels : list (Z * str) :=
  [ (1, py "18" ++ EN_DASH :: py "25"); (2, py "26" ++ EN_DASH :: py "40");
    (3, py "41" ++ EN_DASH :: py "59"); (4, py "60+") ].
Definition q7_labels : list (Z * str) :=
  [ (1, py "Not at all"); (2, py "Neutral"); (3, py "Slightly");
    (4, py "Moderately"); (5, py "Highly"); (6, py "Severely") ].
Definition dur_labels : list (Z * str) :=
  [ (1, py "<1 yr"); (2, py "1" ++ EN_DASH :: py "5 yrs");
    (3, py "5" ++ EN_DASH :: py "10 yrs"); (4, py ">10 yrs") ].

(** [labels.get(v)]: the label of a code, [None] (NaN in the series) when
    the code has none. *)
Fixpoint label_of (labels : list (Z * str)) (v : Z) : option str :=
  match labels with
  | [] => None
  | (k, l) :: labels' => if decide (k = v) then Some l else label_of labels' v
  end.

(** [sub = df[[x, y]].dropna()] with its two label columns
    [sub[x].map(xl)] and [sub[y].map(yl)]. *)
Definition label_columns (df : DataFrame) (x y : column)
  (xl yl : list (Z * str)) : list (option str * option str) :=
  map (fun ab => (label_of xl (fst ab), label_of yl (snd ab))) (dropna2 df x y).

(** Order of Python strings: by code point, a prefix first. *)
Fixpoint str_ltb (a b : str) : bool :=
  match a, b with
  | _, [] => false
  | [], _ :: _ => true
  | x :: a', y :: b' => (x <? y)%N || ((x =? y)%N && str_ltb a' b')
  end.

Fixpoint insert_sorted (x : str) (l : list str) : list str :=
  match l with
  | [] => [x]
  | y :: l' =>
      if str_ltb x y then x :: l
      else if decide (x = y) then l
      else y :: insert_sorted x l'
  end.

(** The distinct labels, sorted. *)
Definition sorted_unique (l : list str) : list str := foldr insert_sorted [] l.

(** [pd.crosstab(rows, cols).values]: the pairs with both labels present
    are counted; one row per distinct row label and one column per distinct
    column label among them, both sorted. *)
Definition crosstab (cells : list (option str * option str)) : list (list Z) :=
  let present :=
    omap (fun rc => match rc with
                    | (Some r, Some c) => Some (r, c)
                    | _ => None
                    end) cells in
  let index := sorted_unique (map fst present) in
  let columns := sorted_unique (map snd present) in
  map (fun r => map (fun c => len (filter (fun rc => rc = (r, c)) present))
                    columns) index.

Section Script.
Context `{PyRuntime}.

Definition kw_interpret (p : float) (n_groups n_total : Z) : str :=
  let sig := (p <? 0.05)%float in
  let caveat :=
    if n_total <? 30
    then py " (" ++ WARNING_SIGN :: py " n=" ++ str_of_int n_total
         ++ py ", small subgroups " ++ EM_DASH :: py " indicative only)"
    else [] in
  (if sig then py "Significant difference between groups"
   else py "No significant difference") ++ caveat.

Definition mwu_interpret (p : float) (g1 g2 : str) : str :=
  (if (p <? 0.05)%float then py "*" else py "ns")
  ++ py "  p=" ++ format_float ".3f" p ++ py "  (" ++ g1 ++ py " vs " ++ g2
  ++ py ")".

Local Open Scope script_scope.

(** The line with H, p and the interpretation of a Kruskal-Wallis test. *)
Definition kw_line (stat p : float) (interp : str) : str :=
  py "   H = " ++ format_float ".3f" stat ++ py ",  p = "
  ++ format_float ".4f" p ++ py "  " ++ RIGHT_ARROW :: py "  " ++ interp.

(** A. Floor level and Q4 noise rating *)
Definition kw_A (df : DataFrame) : script (float * float) :=
  let floor_groups := floor_groups df in
  r <- scipy (kruskal (values floor_groups)) ;;
  let '(stat_a, p_a) := r in
  let n_a := total floor_groups in
  print (10%N :: py "A. Floor Level " ++ MULT_SIGN :: py " Q4 Noise Rating") ;;
  print (kw_line stat_a p_a (kw_interpret p_a (len floor_groups) n_a)) ;;
  Ret (stat_a, p_a).

(** B. Site and Q4 noise rating *)
Definition kw_B (df : DataFrame) : script (float * float) :=
  let site_noise_groups := site_noise_groups df in
  r <- scipy (kruskal (values site_noise_groups)) ;;
  let '(stat_b, p_b) := r in
  let n_b := total site_noise_groups in
  print (10%N :: py "B. Site " ++ MULT_SIGN :: py " Q4 Noise Rating") ;;
  print (kw_line stat_b p_b (kw_interpret p_b 4 n_b)) ;;
  Ret (stat_b, p_b).

(** C. Site and Q11 QoL *)
Definition kw_C (df : DataFrame) : script (float * float) :=
  let site_qol_groups := site_qol_groups df in
  r <- scipy (kruskal (values site_qol_groups)) ;;
  let '(stat_c, p_c) := r in
  let n_c := total site_qol_groups in
  print (10%N :: py "C. Site " ++ MULT_SIGN :: py " Q11 QoL") ;;
  print (kw_line stat_c p_c (kw_interpret p_c 4 n_c)) ;;
  Ret (stat_c, p_c).

(** One turn of a post-hoc loop over [pairs], on the groups [d]. *)
Definition posthoc_pair (d : groups) (s : str * str) : script unit :=
  let '(s1, s2) := s in
  g1 <- getitem d s1 ;;
  g2 <- getitem d s2 ;;
  if (2 <=? len g1) && (2 <=? len g2) then
    r <- scipy (mannwhitneyu g1 g2 "two-sided") ;;
    let '(u, p_mwu) := r in
    print (py "   " ++ mwu_interpret p_mwu s1 s2)
  else Ret tt.

(** The two post-hoc loops, as they follow the three tests. *)
Definition posthoc (df : DataFrame) : script unit :=
  print (10%N :: BOX_LINE :: BOX_LINE ::
         py " Mann-Whitney U Pairwise Post-hoc (Site " ++ MULT_SIGN ::
         py " Q4 Noise) " ++ [BOX_LINE; BOX_LINE]) ;;
  for_each pairs (posthoc_pair (site_noise_groups df)) ;;
  print (10%N :: BOX_LINE :: BOX_LINE ::
         py " Mann-Whitney U Pairwise Post-hoc (Site " ++ MULT_SIGN ::
         py " Q11 QoL) " ++ [BOX_LINE; BOX_LINE]) ;;
  for_each pairs (posthoc_pair (site_qol_groups df)) ;;
  Ret tt.

(** The Kruskal-Wallis part of the script, top to bottom. *)
Definition kruskal_wallis_tests (df : DataFrame) : script unit :=
  print (repeat 61%N 70) ;;
  print (py "KRUSKAL-WALLIS TESTS") ;;
  print (repeat 61%N 70) ;;
  kw_A df ;;
  kw_B df ;;
  kw_C df ;;
  posthoc df.

(** [ct_arr.shape] of a table given by its rows. *)
Definition shape (ct_arr : list (list Z)) : nat * nat :=
  (length ct_arr, match ct_arr with [] => 0%nat | row :: _ => length row end).

Definition sig_line (p : float) : str :=
  py "   " ++ RIGHT_ARROW :: py " "
  ++ (if (p <? 0.05)%float then py "SIGNIFICANT " ++ [CHECK_MARK]
      else py "not significant").

(** Run Fisher's Exact on a crosstab; returns (odds ratio or None, p). *)
Definition run_fishers (ct_arr : list (list Z)) (label : str)
  : script (option float * float) :=
  if decide (shape ct_arr = (2%nat, 2%nat)) then
    r <- scipy (fisher_exact ct_arr) ;;
    let '(oddsratio, p) := r in
    print (10%N :: label) ;;
    print (py "   Fisher's Exact  p = " ++ format_float ".4f" p
           ++ py ",  Odds Ratio = " ++ format_float ".3f" oddsratio) ;;
    print (sig_line p) ;;
    Ret (Some oddsratio, p)
  else
    r <- scipy (chi2_contingency ct_arr) ;;
    let '(chi2, p, dof, _) := r in
    print (10%N :: label ++ py "  [" ++ str_of_int (Z.of_nat (fst (shape ct_arr)))
           ++ MULT_SIGN :: str_of_int (Z.of_nat (snd (shape ct_arr)))
           ++ py " table]") ;;
    print (py "   Chi" ++ SUPERSCRIPT_TWO :: py " = " ++ format_float ".3f" chi2
           ++ py ",  df = " ++ str_of_int dof ++ py ",  p = "
           ++ format_float ".4f" p) ;;
    print (py "   " ++ WARNING_SIGN :: py "  Table > 2" ++ MULT_SIGN ::
           py "2: Chi" ++ SUPERSCRIPT_TWO ::
           py " used; interpret with caution (small n).") ;;
    print (sig_line p) ;;
    Ret (None, p).

(** D. Q10 community connection and Q11 QoL *)
Definition fisher_D (df : DataFrame) : script (option float * float) :=
  let ct_d := crosstab (label_columns df col_Q10_community col_Q11_QoL
                                      q10_labels q11_labels) in
  run_fishers ct_d (py "D. Q10 Community Connection " ++ MULT_SIGN ::
                    py " Q11 QoL").

(** E. Age group and Q7 concentration impact *)
Definition fisher_E (df : DataFrame) : script (option float * float) :=
  let ct_e := crosstab (label_columns df col_age_numeric col_Q7_concentration
                                      age_labels q7_labels) in
  run_fishers ct_e (py "E. Age Group " ++ MULT_SIGN ::
                    py " Q7 Concentration Impact").

(** F. Residency duration and Q11 QoL *)
Definition fisher_F (df : DataFrame) : script (option float * float) :=
  let ct_f := crosstab (label_columns df col_residency_numeric col_Q11_QoL
                                      dur_labels q11_labels) in
  run_fishers ct_f (py "F. Residency Duration " ++ MULT_SIGN ::
                    py " Q11 QoL").

(** The contingency part of the script, after its banner. *)
Definition fisher_tests (df : DataFrame) : script unit :=
  print (10%N :: repeat 61%N 70) ;;
  print (py "FISHER'S EXACT TEST (categorical " ++ MULT_SIGN ::
         py " categorical)") ;;
  print (py "  Note: Chi-Square avoided " ++ EM_DASH ::
         py " expected cell counts < 5 with n=20") ;;
  print (repeat 61%N 70) ;;
  fisher_D df ;;
  fisher_E df ;;
  fisher_F df ;;
  Ret tt.

(** The script up to its closing notice, from the loaded table [df]. *)
Definition analysis_3 (df : DataFrame) : script unit :=
  kruskal_wallis_tests df ;;
  fisher_tests df.

End Script.

End analysis_3_kruskal_fisher.

(** ** Counting the noise sources: analysis_1_descriptives.py and
    analysis_final.py *)

(** [s.startswith(prefix)] *)
Fixpoint startswith (s prefix : str) : bool :=
  match prefix, s with
  | [], _ => true
  | _ :: _, [] => false
  | p :: prefix', c :: s' => (p =? c)%N && startswith s' prefix'
  end.

(** [needle in hay], for two texts *)
Fixpoint contains (needle hay : str) : bool :=
  startswith hay needle
  || match hay with
     | [] => false
     | _ :: hay' => contains needle hay'
     end.

(** A cell of a text column as pandas loads it: a text, or NaN (a float)
    where the file has nothing. *)
Inductive loaded : Type :=
| Text (s : str)
| NaN.

(** [counts[label] += 1] *)
Fixpoint increment (counts : list (str * Z)) (label : str)
  : result (list (str * Z)) :=
  match counts with
  | [] => Raise (KeyError label)
  | (l, n) :: counts' =>
      if decide (l = label) then Ok ((l, n + 1) :: counts')
      else bind (increment counts' label) (fun c => Ok ((l, n) :: c))
  end.

Module analysis_1_descriptives.

(** keyword to chart label *)
Definition source_keywords : list (str * str) :=
  [ (py "Road Traffic / MRT", py "Road Traffic / MRT");
    (py "Religious Activities", py "Religious Activities");
    (py "Commercial Events",
     py "Commercial Events" ++ 10%N :: py "(Busking, Festivals)");
    (py "Construction / Renovation", py "Construction / Renovation") ].

Section Script.
Context `{PyRuntime}.
Local Open Scope py_scope.

(** [src.lower()]; NaN has no [lower] *)
Definition lower_of (src : loaded) : result str :=
  match src with
  | Text s => Ok (lower s)
  | NaN => Raise AttributeError
  end.

(** The inner loop, over the keywords, for the answer [src]. *)
Fixpoint count_answer (src : loaded) (keywords : list (str * str))
  (counts : list (str * Z)) : result (list (str * Z)) :=
  match keywords with
  | [] => Ok counts
  | (key, label) :: keywords' =>
      s <- lower_of src ;;
      counts' <- (if contains (lower key) s then increment counts label
                  else Ok counts) ;;
      count_answer src keywords' counts'
  end.

(** The outer loop, over the column. *)
Fixpoint count_answers (column : list loaded) (counts : list (str * Z))
  : result (list (str * Z)) :=
  match column with
  | [] => Ok counts
  | src :: column' =>
      counts' <- count_answer src source_keywords counts ;;
      count_answers column' counts'
  end.

(** [counts] after the loops over [df["Q5_noise_sources"]]. *)
Definition counts (column : list loaded) : result (list (str * Z)) :=
  count_answers column (map (fun kl => (snd kl, 0)) source_keywords).

End Script.

End analysis_1_descriptives.

Module analysis_final.

Definition source_map : list (str * str) :=
  [ (py "Road Traffic / MRT", py "Road Traffic / MRT");
    (py "Religious Activities", py "Religious Activities");
    (py "Commercial Events",
     py "Commercial Events" ++ 10%N :: py "(Busking, Festivals)");
    (py "Construction / Renovation",
     py "Construction /" ++ 10%N :: py "Renovation") ].

(** [str(src)] *)
Definition str_of (src : loaded) : str :=
  match src with
  | Text s => s
  | NaN => py "nan"
  end.

Section Script.
Context `{PyRuntime}.
Local Open Scope py_scope.

(** The inner loop, over the keywords, for the answer [src]. *)
Fixpoint count_answer (src : loaded) (keywords : list (str * str))
  (counts : list (str * Z)) : result (list (str * Z)) :=
  match keywords with
  | [] => Ok counts
  | (key, lbl) :: keywords' =>
      counts' <- (if contains (lower key) (lower (str_of src))
                  then increment counts lbl else Ok counts) ;;
      count_answer src keywords' counts'
  end.

(** The outer loop, over the column. *)
Fixpoint count_answers (column : list loaded) (counts : list (str * Z))
  : result (list (str * Z)) :=
  match column with
  | [] => Ok counts
  | src :: column' =>
      counts' <- count_answer src source_map counts ;;
      count_answers column' counts'
  end.

(** [counts] after the loops over [df["Q5_noise_sources"]]. *)
Definition counts (column : list loaded) : result (list (str * Z)) :=
  count_answers column (map (fun kl => (snd kl, 0)) source_map).

End Script.

End analysis_final.

(** ** Sample inputs *)

(** An interpreter whose character database treats every character beyond
    ASCII as a plain symbol: no space, no digit, no case.  That is what the
    Unicode database says of the en dash, the only such character of the
    encoding maps; the examples below use ASCII text and the en dash only.
    The limit on integer literals is CPython's default. *)
Definition plain_runtime : PyRuntime := {|
  unicode_isspace := fun _ => false;
  unicode_lower := fun _ _ c => [c];
  unicode_isdigit := fun _ => false;
  unicode_decimal := fun _ => None;
  int_max_str_digits := 4300;
  format_float := fun _ _ => py "<float>";
|}.

(** A scipy under which no test is significant: every statistic is 0 and
    every p-value is 1. *)
Definition not_significant : Scipy :=
  fun c =>
    match c with
    | chi2_contingency _ => Ok (0%float, 1%float, 0, [])
    | spearmanr _ _ => Ok (0%float, 1%float)
    | kruskal _ => Ok (0%float, 1%float)
    | mannwhitneyu _ _ _ => Ok (0%float, 1%float)
    | fisher_exact _ => Ok (0%float, 1%float)
    end.

(** A raw row with the given answers to questions 4 (noise), 6 (spike), 8
    (air) and 10 (community); the other answers are fixed. *)
Definition raw_row (q4 q6 q8 q10 : str) : gmap str (option str) :=
  <[create_clean_csv.COL_SITE := Some (py "Waterloo Centre")]> (
  <[create_clean_csv.COL_AGE := Some (py "26 " ++ EN_DASH :: py " 40")]> (
  <[create_clean_csv.COL_DURATION := Some (py "1 - 5 years")]> (
  <[create_clean_csv.COL_FLOOR := Some (py "High Rise (Floors 11+)")]> (
  <[create_clean_csv.COL_Q4 := Some q4]> (
  <[create_clean_csv.COL_Q5 := Some (py "Traffic, Construction")]> (
  <[create_clean_csv.COL_Q6 := Some q6]> (
  <[create_clean_csv.COL_Q7 := Some (py "Slightly distracting")]> (
  <[create_clean_csv.COL_Q8 := Some q8]> (
  <[create_clean_csv.COL_Q9 := Some (py "No change")]> (
  <[create_clean_csv.COL_Q10 := Some q10]> (
  <[create_clean_csv.COL_Q11 := Some (py "Reduces slightly")]> ∅))))))))))).

(** A clean record of the given site and floor with the given noise
    rating, concentration code and quality-of-life code. *)
Definition respondent (id : Z) (site floor : str) (q4 q7 q11 : option Z)
  : create_clean_csv.CleanRecord :=
  {| create_clean_csv.respondent_id := id;
     create_clean_csv.site := site;
     create_clean_csv.age_group := py "26 " ++ EN_DASH :: py " 40";
     create_clean_csv.age_numeric := Some 2;
     create_clean_csv.residency_duration := py "1 - 5 years";
     create_clean_csv.residency_numeric := Some 2;
     create_clean_csv.floor_level := floor;
     create_clean_csv.floor_numeric := None;
     create_clean_csv.Q4_noise_rating := q4;
     create_clean_csv.Q5_noise_sources := py "Traffic";
     create_clean_csv.Q6_noise_spike := 1;
     create_clean_csv.Q6_spike_raw := py "Yes";
     create_clean_csv.Q7_concentration_raw := [];
     create_clean_csv.Q7_concentration := q7;
     create_clean_csv.Q8_air_quality := Some 6;
     create_clean_csv.Q9_convenience_raw := [];
     create_clean_csv.Q10_community_raw := py "Yes";
     create_clean_csv.Q10_community := Some 2;
     create_clean_csv.Q11_QoL_raw := [];
     create_clean_csv.Q11_QoL := q11 |}.

(** Two respondents with both the noise rating and the concentration code;
    three with one and the same noise rating; three with no noise rating. *)
Definition two_respondents : list create_clean_csv.CleanRecord :=
  [ respondent 1 (py "Waterloo Centre") (py "High Rise (Floors 11+)")
      (Some 5) (Some 3) (Some 2);
    respondent 2 (py "Albert Centre") (py "High Rise (Floors 11+)")
      (Some 7) (Some 4) (Some 3) ].

Definition constant_noise : list create_clean_csv.CleanRecord :=
  [ respondent 1 (py "Waterloo Centre") (py "High Rise (Floors 11+)")
      (Some 5) (Some 3) (Some 2);
    respondent 2 (py "Albert Centre") (py "High Rise (Floors 11+)")
      (Some 5) (Some 4) (Some 3);
    respondent 3 (py "Albert Centre") (py "High Rise (Floors 11+)")
      (Some 5) (Some 1) (Some 1) ].

Definition missing_noise : list create_clean_csv.CleanRecord :=
  [ respondent 1 (py "Waterloo Centre") (py "High Rise (Floors 11+)")
      None (Some 3) (Some 2);
    respondent 2 (py "Albert Centre") (py "High Rise (Floors 11+)")
      None (Some 4) (Some 3);
    respondent 3 (py "Albert Centre") (py "High Rise (Floors 11+)")
      None (Some 1) (Some 1) ].

(** One respondent, on a low floor of Waterloo Centre, with a noise rating
    and a quality-of-life code. *)
Definition one_respondent : list create_clean_csv.CleanRecord :=
  [ respondent 1 (py "Waterloo Centre")
      (py "Low Rise (Floors 1" ++ EN_DASH :: py "5)") (Some 5) (Some 3)
      (Some 2) ].

(** Eight respondents, two in each site, one of them on a low floor and one
    on a middle floor, rating the noise 1 and 2 and coded 1 and 2 for the
    quality of life: the floors do not differ, nor do the sites. *)
Definition eight_respondents : list create_clean_csv.CleanRecord :=
  let low := py "Low Rise (Floors 1" ++ EN_DASH :: py "5)" in
  let mid := py "Mid Rise (Floors 6" ++ EN_DASH :: py "10)" in
  [ respondent 1 (py "Waterloo Centre") low (Some 1) (Some 3) (Some 1);
    respondent 2 (py "Waterloo Centre") mid (Some 2) (Some 3) (Some 2);
    respondent 3 (py "Cheng Yan Court") mid (Some 1) (Some 3) (Some 1);
    respondent 4 (py "Cheng Yan Court") low (Some 2) (Some 3) (Some 2);
    respondent 5 (py "Albert Centre") low (Some 1) (Some 3) (Some 1);
    respondent 6 (py "Albert Centre") mid (Some 2) (Some 3) (Some 2);
    respondent 7 (py "Bras Basah Complex") mid (Some 1) (Some 3) (Some 1);
    respondent 8 (py "Bras Basah Complex") low (Some 2) (Some 3) (Some 2) ].

(** An interpreter that knows one character beyond ASCII, superscript two:
    a digit for [str.isdigit] and no decimal for [int], as the Unicode
    database has it. *)
Definition superscript_runtime : PyRuntime := {|
  unicode_isspace := fun _ => false;
  unicode_lower := fun _ _ c => [c];
  unicode_isdigit := fun c => (c =? 178)%N;
  unicode_decimal := fun _ => None;
  int_max_str_digits := 4300;
  format_float := fun _ _ => py "<float>";
|}.

(** A scipy that refuses what scipy refuses: a Kruskal-Wallis test on fewer
    than two samples and a chi-square test on a table with no cell.  Every
    other call returns the statistic 0 and the p-value 1. *)
Definition strict_scipy : Scipy :=
  fun c =>
    match c with
    | kruskal samples =>
        if (length samples <? 2)%nat then Raise ValueError
        else Ok (0%float, 1%float)
    | chi2_contingency [] => Raise ValueError
    | chi2_contingency _ => Ok (0%float, 1%float, 0, [])
    | spearmanr _ _ => Ok (0%float, 1%float)
    | mannwhitneyu _ _ _ => Ok (0%float, 1%float)
    | fisher_exact _ => Ok (0%float, 1%float)
    end.

(** A numpy that refuses what numpy refuses: [np.polyfit] raises a
    [TypeError] on an empty column and on columns of different lengths, and
    a [LinAlgError] on a column with a missing cell, where the least-squares
    fit does not converge.  The coefficients of the other fits go into the
    figure only: they are given as 0. *)
Definition strict_numpy : Numpy := {|
  polyfit := fun x y _ =>
    let present (c : option Z) := match c with Some _ => true | None => false end in
    if (length x =? 0)%nat then Raise TypeError
    else if negb (length x =? length y)%nat then Raise TypeError
    else if forallb present x && forallb present y
         then Ok [0%float; 0%float]
         else Raise LinAlgError;
|}.

(** A raw row whose export lacks the column of question 8. *)
Definition row_without_air : gmap str (option str) :=
  delete create_clean_csv.COL_Q8 (raw_row (py "7") (py "No") (py "6") (py "Yes")).

(** Three raw rows, the second from an export without question 8. *)
Definition reader_with_bad_row : list (gmap str (option str)) :=
  [ raw_row (py "7") (py "No") (py "6") (py "Yes");
    row_without_air;
    raw_row (py "3") (py "Yes") (py "8") (py "No") ].

(** Five answers to question 5, one of them missing. *)
Definition noise_answers : list loaded :=
  [ Text (py "Road Traffic / MRT, Construction / Renovation");
    Text (py "religious activities");
    NaN;
    Text (py "Neighbours");
    Text (py "ROAD TRAFFIC / MRT") ].

(** ** Notions used to state the properties *)

(** A text is blank when it has white space only. *)
Definition blank `{PyRuntime} (s : str) : bool := forallb isspace_char s.

(** Upper-casing of an ASCII letter. *)
Definition ascii_upper (c : N) : N :=
  if ((97 <=? c) && (c <=? 122))%N then (c - 32)%N else c.

(** The number an unsigned ASCII digit string denotes. *)
Definition decimal_value (s : str) : N :=
  fold_left (fun acc c => (acc * 10 + (c - 48))%N) s 0%N.

(** The first character of a text, if it has one, is no white space. *)
Definition clean_head `{PyRuntime} (s : str) : Prop :=
  match s with
  | [] => True
  | c :: _ => isspace_char c = false
  end.

(** A character that is no sign: such are the characters [int] reads once
    a text of digits is brought to ASCII. *)
Definition unsigned_char (c : N) : Prop := c <> 43%N /\ c <> 45%N.

(** A cell is missing or holds an integer between [lo] and [hi]. *)
Definition missing_or_within (lo hi : Z) (v : option Z) : Prop :=
  match v with
  | None => True
  | Some z => lo <= z <= hi
  end.

(** Every code of a table lies between [lo] and [hi]. *)
Definition codes_within (lo hi : Z) (mapping : gmap str Z) : Prop :=
  map_Forall (fun _ code => lo <= code <= hi) mapping.

(** What the encoder makes of the raw text of a rating question, [q] being
    the trimmed text: no rating unless [q] is a text of digits; the number
    [q] denotes when [q] is made of ASCII digits, within the limit of the
    interpreter; and whenever a rating is set, it is what [int] reads in
    [q], and is not negative. *)
Definition rating_follows_digits `{PyRuntime} (raw : str) (field : option Z)
  : Prop :=
  let q := strip raw in
  (isdigit q = false -> field = None) /\
  (q <> [] -> forallb ascii_isdigit q = true ->
   too_many_digits (length q) = false ->
   py_int q = Ok (Z.of_N (decimal_value q)) /\
   field = Some (Z.of_N (decimal_value q))) /\
  (forall z, field = Some z ->
             isdigit q = true /\ py_int q = Ok z /\ 0 <= z).

(** The four site groups of a test, [g] giving the sample of a site. *)
Definition site_groups (g : str -> list Z) : list (str * list Z) :=
  map (fun s => (s, g s)) analysis_3_kruskal_fisher.site_order.

(** The pairwise tests a post-hoc loop has to make on the samples [g]: one
    for each pair of sites with at least 2 observations on both sides. *)
Definition pairwise_tests (g : str -> list Z) : list call :=
  omap (fun s : str * str =>
          if (2 <=? len (g (fst s))) && (2 <=? len (g (snd s)))
          then Some (mannwhitneyu (g (fst s)) (g (snd s)) "two-sided")
          else None) analysis_3_kruskal_fisher.pairs.

(** An interpretation carries a caveat: each caveat of the scripts, and
    no other part of an interpretation, has the warning sign. *)
Definition has_caveat (interp : str) : bool :=
  existsb (N.eqb WARNING_SIGN) interp.

(** The columns [main] reads from a row, in the order it reads them. *)
Definition RAW_COLUMNS : list str :=
  [ create_clean_csv.COL_SITE; create_clean_csv.COL_AGE;
    create_clean_csv.COL_DURATION; create_clean_csv.COL_FLOOR;
    create_clean_csv.COL_Q4; create_clean_csv.COL_Q5;
    create_clean_csv.COL_Q6; create_clean_csv.COL_Q7;
    create_clean_csv.COL_Q8; create_clean_csv.COL_Q9;
    create_clean_csv.COL_Q10; create_clean_csv.COL_Q11 ].

(** The two fields of an entry of [PAIRS], the rows of the table where both
    are present, and the Spearman test on them. *)
Definition xvar_of (pair : column * column * str * str) : column :=
  fst (fst (fst pair)).
Definition yvar_of (pair : column * column * str * str) : column :=
  snd (fst (fst pair)).
Definition complete_rows (df : DataFrame) (pair : column * column * str * str)
  : list (Z * Z) :=
  dropna2 df (xvar_of pair) (yvar_of pair).
Definition spearman_test (df : DataFrame) (pair : column * column * str * str)
  : call :=
  spearmanr (map fst (complete_rows df pair)) (map snd (complete_rows df pair)).

(** The trend line of the scatter plot of an entry of [PAIRS]: the fit of a
    line on the two whole columns. *)
Definition trend_line `{Numpy} (df : DataFrame)
  (pair : column * column * str * str) : result (list float) :=
  polyfit (map (get (xvar_of pair)) df) (map (get (yvar_of pair)) df) 1.

(** The pairs of labels a crosstab counts: those with both labels present. *)
Definition present_pairs (cells : list (option str * option str))
  : list (str * str) :=
  omap (fun rc => match rc with
                  | (Some r, Some c) => Some (r, c)
                  | _ => None
                  end) cells.

(** The sum of the cells of a table. *)
Definition cell_sum (ct : list (list Z)) : Z :=
  foldr Z.add 0 (map (foldr Z.add 0) ct).

(** Texts in strictly increasing order. *)
Fixpoint increasing (l : list str) : Prop :=
  match l with
  | [] => True
  | x :: l' =>
      Forall (fun y => analysis_3_kruskal_fisher.str_ltb x y = true) l'
      /\ increasing l'
  end.

(** A loaded cell is NaN. *)
Definition is_nan (src : loaded) : bool :=
  match src with
  | NaN => true
  | Text _ => false
  end.

(** The answer [src] is a text that names the keyword [key], whatever the
    case of either. *)
Definition names `{PyRuntime} (key : str) (src : loaded) : bool :=
  match src with
  | Text s => contains (lower key) (lower s)
  | NaN => false
  end.

(** The number of answers of a column that name [key]. *)
Definition answers_naming `{PyRuntime} (key : str) (column : list loaded) : Z :=
  len (filter (fun src => Is_true (names key src)) column).

(** For each keyword, its label with the number of answers that name it. *)
Definition keyword_counts `{PyRuntime} (keywords : list (str * str))
  (column : list loaded) : list (str * Z) :=
  map (fun kl => (snd kl, answers_naming (fst kl) column)) keywords.

Definition bit (b : bool) : Z := if b then 1 else 0.

(** * Properties *)

(** ** Text *)

Section TextFacts.
Context `{PyRuntime}.

Lemma lstrip_blank (s : str) : blank s = true -> lstrip s = [].
Proof.
  unfold blank. induction s as [|c s IH]; simpl; [reflexivity|].
  intros [Hc Hs]%andb_prop. rewrite Hc. auto.
Qed.

Lemma lstrip_app_blank (pre s : str) :
  blank pre = true -> lstrip (pre ++ s) = lstrip s.
Proof.
  unfold blank. induction pre as [|c pre IH]; simpl; [reflexivity|].
  intros [Hc Hs]%andb_prop. rewrite Hc. auto.
Qed.

Lemma blank_rev (s : str) : blank (rev s) = blank s.
Proof.
  unfold blank. induction s as [|c s IH]; simpl; [reflexivity|].
  rewrite forallb_app, IH. simpl. rewrite andb_true_r. apply andb_comm.
Qed.

Lemma rstrip_app_blank (s post : str) :
  blank post = true -> rstrip (s ++ post) = rstrip s.
Proof.
  intros Hp. unfold rstrip. rewrite rev_app_distr, lstrip_app_blank; [reflexivity|].
  now rewrite blank_rev.
Qed.

Lemma rstrip_nil : rstrip [] = [].
Proof. reflexivity. Qed.

Lemma strip_blank (s : str) : blank s = true -> strip s = [].
Proof. intros Hs. unfold strip. now rewrite lstrip_blank. Qed.

(** White space around a text does not change what [strip] returns. *)
Lemma strip_padding (pre s post : str) :
  blank pre = true -> blank post = true ->
  strip (pre ++ s ++ post) = strip s.
Proof.
  intros Hpre Hpost. unfold strip. rewrite lstrip_app_blank by assumption.
  induction s as [|c s IH]; simpl.
  - now rewrite (lstrip_blank post).
  - destruct (isspace_char c); [exact IH|].
    now rewrite app_comm_cons, rstrip_app_blank.
Qed.

(** On ASCII text [lower] maps the capital letters and nothing else. *)
Lemma lower_imap_ascii (f : nat -> N -> str) (s : str) :
  (forall i c, is_ascii c = true -> f i c = [ascii_lower c]) ->
  forallb is_ascii s = true ->
  concat (imap f s) = map ascii_lower s.
Proof.
  revert f. induction s as [|c s IH]; intros f Hf; simpl; [reflexivity|].
  intros [Hc Hs]%andb_prop. rewrite (Hf 0%nat c Hc). simpl. f_equal.
  apply IH; [|assumption]. intros i d Hd. now apply Hf.
Qed.

Lemma lower_ascii (s : str) :
  forallb is_ascii s = true -> lower s = map ascii_lower s.
Proof.
  intros Hs. unfold lower. apply lower_imap_ascii; [|assumption].
  intros i c Hc. unfold lower_char. now rewrite Hc.
Qed.

(** A property of the ASCII code points is checked on the 128 of them. *)
Lemma ascii_cases (P : N -> Prop) :
  (forall n : nat, (n < 128)%nat -> P (N.of_nat n)) ->
  forall c, is_ascii c = true -> P c.
Proof.
  intros HP c Hc%N.ltb_lt. rewrite <- (N2Nat.id c). apply HP. lia.
Qed.

Lemma ascii_upper_facts (c : N) :
  is_ascii c = true ->
  is_ascii (ascii_upper c) = true /\
  ascii_lower (ascii_upper c) = ascii_lower c /\
  isspace_char (ascii_upper c) = isspace_char c.
Proof.
  revert c. apply ascii_cases. intros n Hn.
  do 128 (destruct n as [|n]; [vm_compute; auto|]).
  lia.
Qed.

Lemma upper_is_ascii (s : str) :
  forallb is_ascii s = true -> forallb is_ascii (map ascii_upper s) = true.
Proof.
  induction s as [|c s IH]; simpl; [reflexivity|].
  intros [Hc Hs]%andb_prop. rewrite IH by assumption.
  now destruct (ascii_upper_facts c Hc) as [-> _].
Qed.

Lemma lstrip_upper (s : str) :
  forallb is_ascii s = true ->
  lstrip (map ascii_upper s) = map ascii_upper (lstrip s).
Proof.
  induction s as [|c s IH]; simpl; [reflexivity|].
  intros [Hc Hs]%andb_prop.
  destruct (ascii_upper_facts c Hc) as (_ & _ & ->).
  destruct (isspace_char c); [auto|reflexivity].
Qed.

Lemma lstrip_is_ascii (s : str) :
  forallb is_ascii s = true -> forallb is_ascii (lstrip s) = true.
Proof.
  induction s as [|c s IH]; simpl; [reflexivity|].
  intros [Hc Hs]%andb_prop. destruct (isspace_char c); [auto|].
  simpl. now rewrite Hc, Hs.
Qed.

Lemma rev_is_ascii (s : str) :
  forallb is_ascii (rev s) = forallb is_ascii s.
Proof.
  induction s as [|c s IH]; simpl; [reflexivity|].
  rewrite forallb_app, IH. simpl. rewrite andb_true_r. apply andb_comm.
Qed.

Lemma strip_is_ascii (s : str) :
  forallb is_ascii s = true -> forallb is_ascii (strip s) = true.
Proof.
  intros Hs. unfold strip, rstrip. rewrite rev_is_ascii.
  apply lstrip_is_ascii. rewrite rev_is_ascii. now apply lstrip_is_ascii.
Qed.

Lemma strip_upper (s : str) :
  forallb is_ascii s = true ->
  strip (map ascii_upper s) = map ascii_upper (strip s).
Proof.
  intros Hs. unfold strip, rstrip.
  rewrite lstrip_upper by assumption.
  rewrite <- map_rev, lstrip_upper, map_rev; [reflexivity|].
  rewrite rev_is_ascii. now apply lstrip_is_ascii.
Qed.

(** Upper-casing an ASCII text does not change its normal form. *)
Lemma lower_strip_upper (s : str) :
  forallb is_ascii s = true ->
  lower (strip (map ascii_upper s)) = lower (strip s).
Proof.
  intros Hs. rewrite strip_upper by assumption.
  pose proof (strip_is_ascii s Hs) as Ht.
  rewrite !lower_ascii by (try apply upper_is_ascii; assumption).
  rewrite map_map. apply map_ext_in. intros c Hc.
  rewrite forallb_forall in Ht.
  now destruct (ascii_upper_facts c (Ht c Hc)) as (_ & -> & _).
Qed.

End TextFacts.

(** ** The encoder *)

Section EncoderFacts.
Import create_clean_csv.
Context `{PyRuntime}.

Lemma encode_lookup (val : str) (mapping : gmap str Z) :
  encode val mapping None = mapping !! lower (strip val).
Proof. unfold encode. now destruct (mapping !! lower (strip val)). Qed.

Lemma lower_nil : lower [] = [].
Proof. reflexivity. Qed.

(** C8. For every encoding table and every raw text: a text whose trimmed,
    lower-cased form is a key gets that key's code; one whose form is no key
    gets the missing marker.  Hence white space around the text and the case
    of its ASCII letters do not matter (" YES " and "yes" get the same code),
    and the empty text, a key of none of the six tables of the ordinal
    questions, is missing in each. *)
Theorem encode_exact_lookup (mapping : gmap str Z) (val : str) :
  (forall code, mapping !! lower (strip val) = Some code ->
                encode val mapping None = Some code) /\
  (mapping !! lower (strip val) = None -> encode val mapping None = None) /\
  (forall val', lower (strip val') = lower (strip val) ->
                encode val' mapping None = encode val mapping None) /\
  (forall pre post, blank pre = true -> blank post = true ->
     encode (pre ++ val ++ post) mapping None = encode val mapping None) /\
  (forallb is_ascii val = true ->
     encode (map ascii_upper val) mapping None = encode val mapping None) /\
  encode (py " YES ") COMMUNITY_MAP None = encode (py "yes") COMMUNITY_MAP None /\
  Forall (fun m => encode [] m None = None)
         [AGE_MAP; DURATION_MAP; FLOOR_MAP; Q7_MAP; COMMUNITY_MAP; Q11_MAP].
Proof.
  rewrite !encode_lookup. repeat split.
  - intros code Hcode. exact Hcode.
  - intros Hnone. exact Hnone.
  - intros val' Hsame. now rewrite ?encode_lookup, Hsame.
  - intros pre post Hpre Hpost.
    now rewrite ?encode_lookup, strip_padding.
  - intros Hascii. now rewrite ?encode_lookup, lower_strip_upper.
  - repeat constructor.
Qed.

(** C7. The answer to the noise-spike question is encoded as 0 exactly when
    its trimmed, lower-cased form is "no", and as 1 otherwise; a blank
    answer is encoded as 1. *)
Theorem noise_spike_only_no_is_negative (val : str) :
  (noise_spike val = 0 <-> lower (strip val) = py "no") /\
  (noise_spike val = 1 <-> lower (strip val) <> py "no") /\
  (blank val = true -> noise_spike val = 1).
Proof.
  unfold noise_spike. repeat split.
  - destruct (decide _); [trivial | discriminate].
  - intros Hno. now rewrite decide_True.
  - destruct (decide _); [discriminate | trivial].
  - intros Hno. now rewrite decide_False.
  - intros Hblank. rewrite strip_blank by assumption.
    rewrite decide_False; [reflexivity | discriminate].
Qed.

Lemma cell_raises (row : gmap str (option str)) (key : str) (e : exn) :
  cell row key = Raise e -> e <> IndexError.
Proof.
  unfold cell. destruct (row !! key) as [[v|]|]; intros [=]; subst; discriminate.
Qed.

Lemma py_int_raises (s : str) (e : exn) : py_int s = Raise e -> e = ValueError.
Proof.
  unfold py_int.
  destruct (match c_strip (to_ascii s) with
            | 43%N :: b => (false, b)
            | 45%N :: b => (true, b)
            | _ => (false, c_strip (to_ascii s))
            end) as [negative body].
  destruct (int_digits false body 0%N 0) as [[v nd]|]; [|now intros [=]].
  destruct (too_many_digits nd); now intros [=].
Qed.

Lemma rating_raises (q : str) (e : exn) : rating q = Raise e -> e = ValueError.
Proof.
  unfold rating. destruct (isdigit q); [|discriminate].
  destruct (py_int q) eqn:Hint; simpl; [discriminate|].
  intros [= <-]. now apply py_int_raises in Hint.
Qed.

(** The encoding of a row fails on what the row lacks or on a rating that
    [int] refuses, never on an index. *)
Lemma encode_row_raises (idx : Z) (row : gmap str (option str)) (e : exn) :
  encode_row idx row = Raise e -> e <> IndexError.
Proof.
  unfold encode_row.
  repeat match goal with
         | |- context [cell row ?k] =>
             let Hc := fresh "Hc" in
             destruct (cell row k) eqn:Hc; simpl;
             [|intros [= <-]; now apply cell_raises in Hc]
         end.
  repeat match goal with
         | |- context [rating ?q] =>
             let Hr := fresh "Hr" in
             destruct (rating q) eqn:Hr; simpl;
             [|intros [= <-]; apply rating_raises in Hr; now subst]
         end.
  discriminate.
Qed.

Lemma encode_rows_length (reader : list (gmap str (option str))) :
  forall idx rows_out,
    encode_rows idx reader = Ok rows_out -> length rows_out = length reader.
Proof.
  induction reader as [|row reader IH]; simpl; intros idx rows_out.
  - now intros [= <-].
  - destruct (encode_row idx row); simpl; [|discriminate].
    destruct (encode_rows (idx + 1) reader) eqn:Hrest; simpl; [|discriminate].
    intros [= <-]. simpl. f_equal. eauto.
Qed.

Lemma encode_rows_raises (reader : list (gmap str (option str))) :
  forall idx e, encode_rows idx reader = Raise e -> e <> IndexError.
Proof.
  induction reader as [|row reader IH]; simpl; intros idx e; [discriminate|].
  destruct (encode_row idx row) eqn:Hrow; simpl.
  - destruct (encode_rows (idx + 1) reader) eqn:Hrest; simpl; [discriminate|].
    intros [= <-]. eauto.
  - intros [= <-]. now apply encode_row_raises in Hrow.
Qed.

(** C10. With a header and no respondent row the reader yields nothing and
    [main] ends in the IndexError of [rows_out[0]]; nothing is handed to
    the writer.  No other input ends in that error. *)
Theorem main_without_rows_fails :
  main [] = Raise IndexError /\
  (forall reader, main reader = Raise IndexError -> reader = []).
Proof.
  split; [reflexivity|].
  intros reader. unfold main.
  destruct (encode_rows 1 reader) as [rows_out|e] eqn:Hrows; simpl.
  - destruct rows_out; simpl; [|discriminate].
    intros _. apply encode_rows_length in Hrows.
    now destruct reader.
  - intros [= ->]. now apply encode_rows_raises in Hrows.
Qed.

End EncoderFacts.

(** ** Trimming twice, and reading integers *)

Section IntFacts.
Context `{PyRuntime}.

Lemma lstrip_clean_head (s : str) : clean_head (lstrip s).
Proof.
  induction s as [|c s IH]; simpl; [exact I|].
  destruct (isspace_char c) eqn:Hc; [exact IH | exact Hc].
Qed.

Lemma lstrip_fixed (s : str) : clean_head s -> lstrip s = s.
Proof. destruct s as [|c s]; simpl; [reflexivity|]. now intros ->. Qed.

Lemma lstrip_snoc (t : str) (c : N) :
  lstrip (t ++ [c]) = if blank t then lstrip [c] else lstrip t ++ [c].
Proof.
  unfold blank. induction t as [|d t IH]; [reflexivity|].
  cbn [app lstrip forallb]. destruct (isspace_char d); [exact IH | reflexivity].
Qed.

Lemma rstrip_cons (c : N) (s : str) :
  rstrip (c :: s) =
  if blank s then (if isspace_char c then [] else [c]) else c :: rstrip s.
Proof.
  unfold rstrip. cbn [rev]. rewrite lstrip_snoc, blank_rev.
  destruct (blank s).
  - cbn [lstrip]. now destruct (isspace_char c).
  - now rewrite rev_app_distr.
Qed.

Lemma rstrip_clean_head (s : str) : clean_head s -> clean_head (rstrip s).
Proof.
  destruct s as [|c s]; [trivial|]. cbn [clean_head]. intros Hc.
  rewrite rstrip_cons, Hc. now destruct (blank s).
Qed.

Lemma rstrip_idempotent (s : str) : rstrip (rstrip s) = rstrip s.
Proof.
  unfold rstrip. rewrite rev_involutive.
  now rewrite (lstrip_fixed (lstrip (rev s))) by apply lstrip_clean_head.
Qed.

(** Trimming a trimmed text changes nothing. *)
Lemma strip_idempotent (s : str) : strip (strip s) = strip s.
Proof.
  unfold strip.
  rewrite (lstrip_fixed (rstrip (lstrip s))).
  - apply rstrip_idempotent.
  - apply rstrip_clean_head, lstrip_clean_head.
Qed.

Lemma to_ascii_char_unsigned (c : N) :
  isdigit_char c = true -> unsigned_char (to_ascii_char c).
Proof.
  unfold isdigit_char, to_ascii_char, is_ascii, ascii_isdigit, unsigned_char.
  destruct (N.ltb_spec c 127) as [Hlt|Hge].
  - destruct (N.ltb_spec c 128); [|lia].
    intros [H1%N.leb_le H2%N.leb_le]%andb_prop. lia.
  - intros _. destruct (unicode_isspace c); [lia|].
    destruct (unicode_decimal c) as [d|]; [|lia].
    destruct (N.ltb_spec d 10); lia.
Qed.

Lemma ascii_digit_unsigned (c : N) :
  is_ascii c = true -> isdigit_char c = true -> unsigned_char c.
Proof.
  unfold isdigit_char, ascii_isdigit, unsigned_char. intros ->.
  intros [H1%N.leb_le H2%N.leb_le]%andb_prop. lia.
Qed.

Lemma to_ascii_unsigned (s : str) :
  forallb isdigit_char s = true -> Forall unsigned_char (to_ascii s).
Proof.
  intros Hs. unfold to_ascii. rewrite forallb_forall in Hs.
  destruct (forallb is_ascii s) eqn:Hascii.
  - rewrite forallb_forall in Hascii. apply List.Forall_forall. intros c Hc.
    apply ascii_digit_unsigned; auto.
  - apply List.Forall_forall. intros c [d [<- Hd]]%in_map_iff.
    apply to_ascii_char_unsigned; auto.
Qed.

Lemma c_lstrip_Forall (P : N -> Prop) (s : str) :
  Forall P s -> Forall P (c_lstrip s).
Proof.
  induction 1 as [|c s Hc Hs IH]; simpl; [constructor|].
  destruct (c_isspace c); [exact IH | now constructor].
Qed.

Lemma c_strip_Forall (P : N -> Prop) (s : str) :
  Forall P s -> Forall P (c_strip s).
Proof.
  intros Hs. unfold c_strip.
  apply Forall_rev, c_lstrip_Forall, Forall_rev, c_lstrip_Forall, Hs.
Qed.

(** What [int] returns for a text of digits is not negative. *)
Lemma py_int_of_digits_nonneg (q : str) (z : Z) :
  isdigit q = true -> py_int q = Ok z -> 0 <= z.
Proof.
  intros Hq. assert (Hall : forallb isdigit_char q = true).
  { destruct q; [discriminate | exact Hq]. }
  pose proof (c_strip_Forall _ _ (to_ascii_unsigned q Hall)) as Hu.
  unfold py_int. destruct (c_strip (to_ascii q)) as [|c body] eqn:Hs.
  - simpl. discriminate.
  - apply Forall_cons in Hu as [[H43 H45] _].
    assert (Hsign : match c with
                    | 43%N => (false, body)
                    | 45%N => (true, body)
                    | _ => (false, c :: body)
                    end = (false, c :: body)).
    { destruct c as [|p]; [reflexivity|].
      do 6 (destruct p as [p|p|]; try reflexivity); congruence. }
    rewrite Hsign.
    destruct (int_digits false (c :: body) 0%N 0) as [[v nd]|]; [|discriminate].
    destruct (too_many_digits nd); [discriminate|].
    intros [= <-]. lia.
Qed.

Lemma c_lstrip_digits (s : str) :
  forallb ascii_isdigit s = true -> c_lstrip s = s.
Proof.
  destruct s as [|c s]; [reflexivity|]. simpl.
  intros [Hc _]%andb_prop. revert Hc. unfold ascii_isdigit, c_isspace.
  intros [H1%N.leb_le H2%N.leb_le]%andb_prop.
  destruct (N.leb_spec 9 c), (N.leb_spec c 13), (N.eqb_spec c 32);
    simpl; try reflexivity; lia.
Qed.

Lemma forallb_rev {A} (f : A -> bool) (l : list A) :
  forallb f (rev l) = forallb f l.
Proof.
  induction l as [|x l IH]; simpl; [reflexivity|].
  rewrite forallb_app, IH. simpl. rewrite andb_true_r. apply andb_comm.
Qed.

Lemma c_strip_digits (s : str) :
  forallb ascii_isdigit s = true -> c_strip s = s.
Proof.
  intros Hs. unfold c_strip. rewrite (c_lstrip_digits s Hs).
  rewrite c_lstrip_digits by now rewrite forallb_rev.
  apply rev_involutive.
Qed.

Lemma digits_are_ascii (s : str) :
  forallb ascii_isdigit s = true ->
  forallb is_ascii s = true /\ forallb isdigit_char s = true.
Proof.
  induction s as [|c s IH]; simpl; [auto|].
  intros [Hc Hs]%andb_prop. destruct (IH Hs) as [-> ->].
  unfold isdigit_char. rewrite Hc.
  assert (is_ascii c = true) as ->; [|auto].
  revert Hc. unfold ascii_isdigit, is_ascii.
  intros [H1%N.leb_le H2%N.leb_le]%andb_prop. apply N.ltb_lt. lia.
Qed.

Lemma int_digits_of_digits (s : str) :
  forallb ascii_isdigit s = true ->
  forall after acc n,
    s <> [] \/ after = true ->
    int_digits after s acc n =
    Some (fold_left (fun a c => (a * 10 + (c - 48))%N) s acc, (n + length s)%nat).
Proof.
  induction s as [|c s IH]; simpl; intros Hs after acc n Hne.
  - destruct Hne as [Hne | ->]; [congruence|]. do 2 f_equal. lia.
  - apply andb_prop in Hs as [Hc Hs]. rewrite Hc.
    assert ((c =? 95)%N = false) as ->.
    { revert Hc. unfold ascii_isdigit.
      intros [H1%N.leb_le H2%N.leb_le]%andb_prop. apply N.eqb_neq. lia. }
    rewrite IH by auto. do 2 f_equal. lia.
Qed.

(** [int] of a text of ASCII digits within the limit: the number it denotes. *)
Lemma py_int_of_ascii_digits (q : str) :
  q <> [] -> forallb ascii_isdigit q = true ->
  too_many_digits (length q) = false ->
  py_int q = Ok (Z.of_N (decimal_value q)).
Proof.
  intros Hne Hq Hlimit. unfold py_int, to_ascii.
  destruct (digits_are_ascii q Hq) as [-> _].
  rewrite (c_strip_digits q Hq).
  destruct q as [|c q]; [congruence|].
  assert (Hsign : match c with
                  | 43%N => (false, q)
                  | 45%N => (true, q)
                  | _ => (false, c :: q)
                  end = (false, c :: q)).
  { pose proof Hq as Hc. simpl in Hc. apply andb_prop in Hc as [Hc _].
    revert Hc. unfold ascii_isdigit.
    intros [H1%N.leb_le H2%N.leb_le]%andb_prop.
    destruct c as [|p]; [reflexivity|].
    do 6 (destruct p as [p|p|]; try reflexivity); lia. }
  rewrite Hsign, (int_digits_of_digits _ Hq) by (left; discriminate).
  cbn [Nat.add]. now rewrite Hlimit.
Qed.

End IntFacts.

(** ** The records of the encoder *)

Section RecordFacts.
Import create_clean_csv.
Context `{PyRuntime}.

Ltac codes_within :=
  unfold codes_within;
  repeat (apply map_Forall_insert_2; [lia|]);
  apply map_Forall_empty.

Lemma AGE_MAP_codes : codes_within 1 4 AGE_MAP.
Proof. unfold AGE_MAP. codes_within. Qed.

Lemma DURATION_MAP_codes : codes_within 1 4 DURATION_MAP.
Proof. unfold DURATION_MAP. codes_within. Qed.

Lemma FLOOR_MAP_codes : codes_within 1 3 FLOOR_MAP.
Proof. unfold FLOOR_MAP. codes_within. Qed.

Lemma Q7_MAP_codes : codes_within 1 6 Q7_MAP.
Proof. unfold Q7_MAP. codes_within. Qed.

Lemma COMMUNITY_MAP_codes : codes_within 0 2 COMMUNITY_MAP.
Proof. unfold COMMUNITY_MAP. codes_within. Qed.

Lemma Q11_MAP_codes : codes_within 1 4 Q11_MAP.
Proof. unfold Q11_MAP. codes_within. Qed.

Lemma encode_within (lo hi : Z) (mapping : gmap str Z) (val : str) :
  codes_within lo hi mapping ->
  missing_or_within lo hi (encode val mapping None).
Proof.
  intros Hm. rewrite encode_lookup.
  destruct (mapping !! lower (strip val)) as [code|] eqn:Hcode; simpl; [|exact I].
  exact (Hm _ _ Hcode).
Qed.

Lemma noise_spike_bit (val : str) : 0 <= noise_spike val <= 1.
Proof. unfold noise_spike. destruct (decide _); lia. Qed.

Lemma cell_ok (row : gmap str (option str)) (key v : str) :
  cell row key = Ok v ->
  exists raw, row !! key = Some (Some raw) /\ v = strip raw.
Proof.
  unfold cell. destruct (row !! key) as [[raw|]|]; intros [=]. eauto.
Qed.

(** A rating is set only from a text of digits, to what [int] makes of it. *)
Lemma rating_some (q : str) (z : Z) :
  rating q = Ok (Some z) -> isdigit q = true /\ py_int q = Ok z /\ 0 <= z.
Proof.
  unfold rating. destruct (isdigit q) eqn:Hq; [|discriminate].
  destruct (py_int q) as [v|] eqn:Hint; simpl; [|discriminate].
  intros [= ->]. eauto using py_int_of_digits_nonneg.
Qed.

Lemma rating_not_digits (q : str) : isdigit q = false -> rating q = Ok None.
Proof. unfold rating. now intros ->. Qed.

Lemma rating_ascii_digits (q : str) :
  q <> [] -> forallb ascii_isdigit q = true ->
  too_many_digits (length q) = false ->
  rating q = Ok (Some (Z.of_N (decimal_value q))).
Proof.
  intros Hne Hq Hlimit. unfold rating.
  assert (isdigit q = true) as ->.
  { destruct q; [congruence|]. now apply digits_are_ascii. }
  now rewrite py_int_of_ascii_digits.
Qed.

(** The record of a row, field by field, from the raw cells of the row. *)
Lemma encode_row_ok (idx : Z) (row : gmap str (option str)) (r : CleanRecord) :
  encode_row idx row = Ok r ->
  exists site_raw age_raw dur_raw floor_raw q4 q5 q6 q7 q8 q9 q10 q11,
    (row !! COL_SITE = Some (Some site_raw) /\
     row !! COL_AGE = Some (Some age_raw) /\
     row !! COL_DURATION = Some (Some dur_raw) /\
     row !! COL_FLOOR = Some (Some floor_raw) /\
     row !! COL_Q4 = Some (Some q4) /\
     row !! COL_Q5 = Some (Some q5) /\
     row !! COL_Q6 = Some (Some q6) /\
     row !! COL_Q7 = Some (Some q7) /\
     row !! COL_Q8 = Some (Some q8) /\
     row !! COL_Q9 = Some (Some q9) /\
     row !! COL_Q10 = Some (Some q10) /\
     row !! COL_Q11 = Some (Some q11)) /\
    rating (strip q4) = Ok (Q4_noise_rating r) /\
    rating (strip q8) = Ok (Q8_air_quality r) /\
    r = {| respondent_id := idx;
           site := strip site_raw;
           age_group := strip age_raw;
           age_numeric := encode age_raw AGE_MAP None;
           residency_duration := strip dur_raw;
           residency_numeric := encode dur_raw DURATION_MAP None;
           floor_level := strip floor_raw;
           floor_numeric := encode floor_raw FLOOR_MAP None;
           Q4_noise_rating := Q4_noise_rating r;
           Q5_noise_sources := strip q5;
           Q6_noise_spike := noise_spike q6;
           Q6_spike_raw := strip q6;
           Q7_concentration_raw := strip q7;
           Q7_concentration := encode q7 Q7_MAP None;
           Q8_air_quality := Q8_air_quality r;
           Q9_convenience_raw := strip q9;
           Q10_community_raw := strip q10;
           Q10_community := encode q10 COMMUNITY_MAP None;
           Q11_QoL_raw := strip q11;
           Q11_QoL := encode q11 Q11_MAP None |}.
Proof.
  unfold encode_row.
  repeat match goal with
         | |- context [cell row ?k] =>
             let Hc := fresh "Hc" in
             let raw := fresh "raw" in
             let Hraw := fresh "Hraw" in
             destruct (cell row k) eqn:Hc; simpl; [|discriminate];
             apply cell_ok in Hc as (raw & Hraw & ->)
         end.
  repeat match goal with
         | |- context [rating ?q] =>
             let Hr := fresh "Hr" in
             destruct (rating q) eqn:Hr; simpl; [|discriminate]
         end.
  intros [= <-]. simpl.
  do 12 eexists. split; [repeat split; eassumption|].
  split; [assumption|]. split; [assumption|].
  unfold encode, noise_spike. now rewrite !strip_idempotent.
Qed.

(** C2 (as amended). Each ordinal code of a clean record is the missing
    marker or an integer within the range of its question (age, residency
    and quality of life 1 to 4, floor 1 to 3, concentration 1 to 6,
    community 0 to 2), and the noise-spike code is 0 or 1.  The ratings of
    questions 4 and 8 are the missing marker or an integer that is not
    negative; they are not held to 1..10. *)
Theorem clean_record_numeric_fields
  (idx : Z) (row : gmap str (option str)) (r : CleanRecord) :
  encode_row idx row = Ok r ->
  missing_or_within 1 4 (age_numeric r) /\
  missing_or_within 1 4 (residency_numeric r) /\
  missing_or_within 1 3 (floor_numeric r) /\
  missing_or_within 1 6 (Q7_concentration r) /\
  missing_or_within 0 2 (Q10_community r) /\
  missing_or_within 1 4 (Q11_QoL r) /\
  0 <= Q6_noise_spike r <= 1 /\
  (forall z, Q4_noise_rating r = Some z -> 0 <= z) /\
  (forall z, Q8_air_quality r = Some z -> 0 <= z).
Proof.
  intros Hr.
  destruct (encode_row_ok _ _ _ Hr)
    as (site_raw & age_raw & dur_raw & floor_raw & q4 & q5 & q6 & q7 & q8
        & q9 & q10 & q11 & _ & H4 & H8 & ->).
  cbn [age_numeric residency_numeric floor_numeric Q7_concentration
       Q10_community Q11_QoL Q6_noise_spike Q4_noise_rating Q8_air_quality]
    in *.
  repeat split;
    try (apply encode_within;
         auto using AGE_MAP_codes, DURATION_MAP_codes, FLOOR_MAP_codes,
           Q7_MAP_codes, COMMUNITY_MAP_codes, Q11_MAP_codes);
    try apply noise_spike_bit.
  - intros z Hz. rewrite Hz in H4. now apply rating_some in H4.
  - intros z Hz. rewrite Hz in H8. now apply rating_some in H8.
Qed.

(** C5 (as amended). For the noise rating and the air quality rating, with
    the raw text trimmed: the field is missing whenever the text is not a
    text of digits, signed integers such as "-5" included; it is the number
    the text denotes whenever the text is made of ASCII digits; and whenever
    the field is set, it is the integer [int] reads in the text. *)
Theorem rating_fields_follow_digits
  (idx : Z) (row : gmap str (option str)) (r : CleanRecord) (q4 q8 : str) :
  encode_row idx row = Ok r ->
  row !! COL_Q4 = Some (Some q4) ->
  row !! COL_Q8 = Some (Some q8) ->
  rating_follows_digits q4 (Q4_noise_rating r) /\
  rating_follows_digits q8 (Q8_air_quality r).
Proof.
  intros Hr Hq4 Hq8.
  destruct (encode_row_ok _ _ _ Hr)
    as (site_raw & age_raw & dur_raw & floor_raw & q4' & q5 & q6 & q7 & q8'
        & q9 & q10 & q11 & Hcells & H4 & H8 & _).
  destruct Hcells as (_ & _ & _ & _ & Hq4' & _ & _ & _ & Hq8' & _).
  assert (q4' = q4) as -> by congruence.
  assert (q8' = q8) as -> by congruence.
  assert (Hlaw : forall raw field,
             rating (strip raw) = Ok field -> rating_follows_digits raw field).
  { intros raw field Hrating. unfold rating_follows_digits. repeat split.
    - intros Hnd. rewrite rating_not_digits in Hrating by assumption.
      congruence.
    - now apply py_int_of_ascii_digits.
    - rewrite rating_ascii_digits in Hrating by assumption. congruence.
    - subst field. now apply rating_some in Hrating.
    - subst field. now apply rating_some in Hrating.
    - subst field. now apply rating_some in Hrating. }
  split; now apply Hlaw.
Qed.

End RecordFacts.

(** Worked examples of the encoder, run with [plain_runtime]. *)

Example encode_yes_any_case :
  @create_clean_csv.encode plain_runtime (py " YES ")
    create_clean_csv.COMMUNITY_MAP None = Some 2.
Proof.
  apply (proj1 (@encode_exact_lookup plain_runtime
                  create_clean_csv.COMMUNITY_MAP (py " YES "))).
  reflexivity.
Defined.

Example noise_spike_no_and_blank :
  @create_clean_csv.noise_spike plain_runtime (py " No ") = 0 /\
  @create_clean_csv.noise_spike plain_runtime (py "   ") = 1.
Proof.
  split.
  - apply (@noise_spike_only_no_is_negative plain_runtime (py " No ")).
    reflexivity.
  - apply (@noise_spike_only_no_is_negative plain_runtime (py "   ")).
    reflexivity.
Defined.

Example numeric_fields_of_a_row :
  exists r,
    @create_clean_csv.encode_row plain_runtime 3
      (raw_row (py "7") (py "No") (py "n/a") (py "Maybe")) = Ok r /\
    missing_or_within 0 2 (create_clean_csv.Q10_community r) /\
    (forall z, create_clean_csv.Q4_noise_rating r = Some z -> 0 <= z).
Proof.
  eexists. split; [reflexivity|].
  pose proof (@clean_record_numeric_fields plain_runtime 3
                (raw_row (py "7") (py "No") (py "n/a") (py "Maybe")) _
                eq_refl) as Hfields.
  split; apply Hfields.
Defined.

(** Against C2 as stated: the ratings 99 and 0, outside 1..10, are kept. *)
Example rating_out_of_range_is_kept :
  exists r,
    @create_clean_csv.encode_row plain_runtime 1
      (raw_row (py "99") (py "No") (py "0") (py "Yes")) = Ok r /\
    create_clean_csv.Q4_noise_rating r = Some 99 /\
    create_clean_csv.Q8_air_quality r = Some 0 /\
    ~ missing_or_within 1 10 (create_clean_csv.Q4_noise_rating r) /\
    ~ missing_or_within 1 10 (create_clean_csv.Q8_air_quality r).
Proof.
  eexists. split; [reflexivity|]. cbn.
  repeat split; try reflexivity; lia.
Qed.

Example rating_of_seven :
  exists r,
    @create_clean_csv.encode_row plain_runtime 1
      (raw_row (py " 7 ") (py "No") (py "seven") (py "Yes")) = Ok r /\
    create_clean_csv.Q4_noise_rating r = Some 7 /\
    create_clean_csv.Q8_air_quality r = None.
Proof.
  eexists. split; [reflexivity|].
  destruct (@rating_fields_follow_digits plain_runtime 1
              (raw_row (py " 7 ") (py "No") (py "seven") (py "Yes")) _
              (py " 7 ") (py "seven") eq_refl eq_refl eq_refl)
    as [(_ & Hdigits & _) (Hmissing & _)].
  split.
  - apply Hdigits; [discriminate | reflexivity | reflexivity].
  - apply Hmissing. reflexivity.
Defined.

(** Against C5 as stated: "-5" and "+7" are integers for [int], and the
    ratings made of them are missing. *)
Example signed_rating_is_missing :
  @py_int plain_runtime (py "-5") = Ok (-5) /\
  @py_int plain_runtime (py "+7") = Ok 7 /\
  exists r,
    @create_clean_csv.encode_row plain_runtime 1
      (raw_row (py "-5") (py "No") (py "+7") (py "Yes")) = Ok r /\
    create_clean_csv.Q4_noise_rating r = None /\
    create_clean_csv.Q8_air_quality r = None.
Proof.
  split; [reflexivity|]. split; [reflexivity|].
  eexists. split; [reflexivity|]. split; reflexivity.
Qed.

(** ** analysis_2_spearman.py *)

Section SpearmanFacts.
Import analysis_2_spearman.

Lemma has_caveat_app (a b : str) :
  has_caveat (a ++ b) = has_caveat a || has_caveat b.
Proof. apply existsb_app. Qed.

Lemma has_caveat_sign (s : str) : has_caveat (WARNING_SIGN :: s) = true.
Proof. reflexivity. Qed.

(** C1 (as amended). The interpretation of a Spearman result carries the
    caveat exactly when the result is not significant (p < 0.05 fails),
    whatever the sample size. *)
Theorem spearman_caveat_follows_significance (rho p : float) (n : Z) :
  has_caveat (interpret rho p n) = negb (p <? 0.05)%float.
Proof.
  unfold interpret.
  destruct (p <? 0.05)%float; cbn [negb].
  - rewrite app_nil_r.
    destruct (0.7 <=? abs rho)%float, (0.4 <=? abs rho)%float,
      (0 <? rho)%float; reflexivity.
  - rewrite !has_caveat_app, has_caveat_sign. now rewrite !orb_true_r.
Qed.

(** X13. The Kruskal-Wallis interpretation goes by the sample size
    instead: its caveat is there exactly below 30 observations, whatever the
    p-value and the number of groups. *)
Lemma kruskal_caveat_follows_sample_size (p : float) (n_groups n_total : Z) :
  has_caveat (analysis_3_kruskal_fisher.kw_interpret p n_groups n_total)
  = (n_total <? 30).
Proof.
  unfold analysis_3_kruskal_fisher.kw_interpret.
  destruct (n_total <? 30).
  - rewrite !has_caveat_app, has_caveat_sign. now rewrite !orb_true_r.
  - rewrite app_nil_r. now destruct (p <? 0.05)%float.
Qed.

(** Against C1 as stated: a significant result on 20 respondents, fewer
    than 30, has no caveat. *)
Example significant_result_has_no_caveat :
  20 < 30 /\
  (0.015625 <? 0.05)%float = true /\
  interpret 0.75 0.015625 20
  = py "strong positive correlation, statistically significant" /\
  has_caveat (interpret 0.75 0.015625 20) = false.
Proof. repeat split. Qed.

Example not_significant_result_has_the_caveat :
  interpret (-0.5) 0.5 40
  = py "moderate negative correlation, not statistically significant ("
    ++ WARNING_SIGN :: py " n=40: treat as indicative)".
Proof. reflexivity. Qed.

Context `{PyRuntime}.

Lemma run_scipy_bind {A} (sp : Scipy) (c : call) (k : reply c -> script A) :
  run sp (sbind (scipy c) k) =
  match sp c with
  | Ok r => let rest := run sp (k r) in
            {| stdout := stdout rest; called := c :: called rest;
               outcome := outcome rest |}
  | Raise e => {| stdout := []; called := [c]; outcome := Raise e |}
  end.
Proof. reflexivity. Qed.

Context `{Numpy}.

(** C4 (as amended). Every correlation analysis calls the Spearman
    computation on the rows where both fields are present, however few they
    are.  When the computation raises, the script ends with its exception
    and the analysis has printed nothing.  When it returns, the analysis
    prints the coefficient and the p-value returned together with their
    interpretation, and goes on to the scatter plot, whose trend line is
    fitted on the two whole columns, missing cells included: when the fit
    raises, the script ends with its exception after that line; otherwise
    the name of the chart is printed and the result is kept.  There is no
    other outcome. *)
Theorem correlation_is_always_computed
  (df : list create_clean_csv.CleanRecord) (xvar yvar : column)
  (title fname : str) (sp : Scipy) :
  let sub := dropna2 df xvar yvar in
  let test := spearmanr (map fst sub) (map snd sub) in
  let analysis := analyse_pair df (xvar, yvar, title, fname) in
  first_call analysis = Some test /\
  called (run sp analysis) = [test] /\
  match sp test with
  | Raise e =>
      stdout (run sp analysis) = [] /\
      outcome (run sp analysis) = Raise e
  | Ok (rho, p) =>
      let interp := interpret rho p (len sub) in
      let line :=
        ljust 35 title ++ py " " ++ format_float ">+7.3f" rho ++ py " "
        ++ format_float ">8.4f" p ++ py "  " ++ interp in
      match polyfit (map (get xvar) df) (map (get yvar) df) 1 with
      | Raise e =>
          stdout (run sp analysis) = [line] /\
          outcome (run sp analysis) = Raise e
      | Ok _ =>
          stdout (run sp analysis)
          = [line; py "  " ++ CHECK_MARK :: py " " ++ fname] /\
          outcome (run sp analysis)
          = Ok (xvar, yvar, title, fname, rho, p, interp)
      end
  end.
Proof.
  cbn zeta. unfold analyse_pair, scatter_spearman.
  split; [reflexivity|].
  rewrite run_scipy_bind.
  destruct (sp (spearmanr _ _)) as [[rho p]|e]; [|repeat split].
  cbn [print raising sbind run called outcome stdout].
  destruct (polyfit _ _ _) as [z|e]; repeat split.
Qed.

End SpearmanFacts.

(** Against C4 as stated: with two complete rows, with a constant field and
    with a field that is missing throughout, the computation is attempted
    and its result interpreted like any other.  With the field that is
    missing throughout, the line of the result is printed for 0 rows and the
    script then ends in the trend line of the chart. *)
Example correlation_attempted_on_insufficient_data :
  let title :=
    py "Chain 1" ++ RIGHT_ARROW :: py "2: Noise Level vs Concentration Impact" in
  let pair := (col_Q4_noise_rating, col_Q7_concentration, title,
               py "spearman_Q4_Q7.png") in
  let analyse_pair :=
    @analysis_2_spearman.analyse_pair plain_runtime strict_numpy in
  In pair analysis_2_spearman.PAIRS /\
  len (dropna2 two_respondents col_Q4_noise_rating col_Q7_concentration) = 2 /\
  first_call (analyse_pair two_respondents pair)
  = Some (spearmanr [5; 7] [3; 4]) /\
  first_call (analyse_pair constant_noise pair)
  = Some (spearmanr [5; 5; 5] [3; 4; 1]) /\
  first_call (analyse_pair missing_noise pair)
  = Some (spearmanr [] []) /\
  outcome (run not_significant (analyse_pair two_respondents pair))
  = Ok (col_Q4_noise_rating, col_Q7_concentration, title,
        py "spearman_Q4_Q7.png", 0%float, 1%float,
        py "weak negative correlation, not statistically significant ("
        ++ WARNING_SIGN :: py " n=2: treat as indicative)") /\
  stdout (run not_significant (analyse_pair missing_noise pair))
  = [ title ++ py " <float> <float>  "
      ++ py "weak negative correlation, not statistically significant ("
      ++ WARNING_SIGN :: py " n=0: treat as indicative)" ] /\
  outcome (run not_significant (analyse_pair missing_noise pair))
  = Raise LinAlgError.
Proof. cbn zeta. split; [now left|]. repeat split. Qed.

(** ** analysis_3_kruskal_fisher.py *)

Section KruskalFacts.
Import create_clean_csv analysis_3_kruskal_fisher.

Lemma group_values_cons
  (r : CleanRecord) (df : list CleanRecord) (by_ : CleanRecord -> str)
  (label : str) (outcome : column) :
  group_values (r :: df) by_ label outcome =
  (if decide (by_ r = label)
   then match get outcome r with Some z => [z] | None => [] end
   else [])
  ++ group_values df by_ label outcome.
Proof.
  unfold group_values. rewrite filter_cons.
  destruct (decide (by_ r = label)); [|reflexivity].
  cbn [omap list_omap]. now destruct (get outcome r).
Qed.

Lemma elem_of_group_values
  (df : list CleanRecord) (by_ : CleanRecord -> str) (label : str)
  (outcome : column) (z : Z) :
  z ∈ group_values df by_ label outcome <->
  exists r, r ∈ df /\ by_ r = label /\ get outcome r = Some z.
Proof.
  unfold group_values. rewrite list_elem_of_omap. split.
  - intros (r & [Hlabel Hr]%list_elem_of_filter & Hz). eauto.
  - intros (r & Hr & Hlabel & Hz). exists r. split; [|assumption].
    now apply list_elem_of_filter.
Qed.

Lemma elem_of_floor_groups (df : list CleanRecord) (fl : str) (vs : list Z) :
  (fl, vs) ∈ floor_groups df <->
  fl ∈ floor_order /\
  vs = group_values df floor_level fl col_Q4_noise_rating /\ vs <> [].
Proof.
  unfold floor_groups. rewrite list_elem_of_filter, list_elem_of_fmap. split.
  - intros [Hne (fl' & [= -> ->] & Hfl)]. auto.
  - intros (Hfl & -> & Hne). split; [exact Hne|]. exists fl. auto.
Qed.

Context `{PyRuntime}.

(** C6 (as amended). A group holds, in the order of the table, the outcome
    of every record of its category whose outcome is present; the floor
    groups are those of the three floor levels that are not empty; and each
    test calls Kruskal-Wallis on its groups, however many they are. *)
Theorem kruskal_groups (df : list CleanRecord) :
  (forall by_ label outcome,
     group_values [] by_ label outcome = [] /\
     forall r df',
       group_values (r :: df') by_ label outcome =
       (if decide (by_ r = label)
        then match get outcome r with Some z => [z] | None => [] end
        else [])
       ++ group_values df' by_ label outcome) /\
  (forall fl vs,
     (fl, vs) ∈ floor_groups df <->
     fl ∈ floor_order /\
     vs = group_values df floor_level fl col_Q4_noise_rating /\ vs <> []) /\
  first_call (kw_A df) = Some (kruskal (values (floor_groups df))) /\
  first_call (kw_B df)
  = Some (kruskal (map (fun s => group_values df site s col_Q4_noise_rating)
                       site_order)) /\
  first_call (kw_C df)
  = Some (kruskal (map (fun s => group_values df site s col_Q11_QoL)
                       site_order)).
Proof.
  split; [|split; [|repeat split]].
  - intros by_ label outcome. split; [reflexivity|].
    intros r df'. apply group_values_cons.
  - apply elem_of_floor_groups.
Qed.

End KruskalFacts.

(** Against C6 as stated: with one respondent the floor test has one
    group left, and Kruskal-Wallis is called on it. *)
Example kruskal_called_on_one_group :
  analysis_3_kruskal_fisher.floor_groups one_respondent
  = [ (py "Low Rise (Floors 1" ++ EN_DASH :: py "5)", [5]) ] /\
  first_call (@analysis_3_kruskal_fisher.kw_A plain_runtime one_respondent)
  = Some (kruskal [[5]]) /\
  called (run not_significant
            (@analysis_3_kruskal_fisher.kw_A plain_runtime one_respondent))
  = [kruskal [[5]]].
Proof. repeat split. Qed.

Section PosthocFacts.
Import create_clean_csv analysis_3_kruskal_fisher.
Context `{PyRuntime}.

(** A pairwise test is made exactly when both groups of the pair have at
    least 2 observations; nothing else is looked at. *)
Lemma posthoc_pair_guard (d : list (str * list Z)) (s1 s2 : str) (g1 g2 : list Z) :
  getitem d s1 = Ret g1 -> getitem d s2 = Ret g2 ->
  first_call (posthoc_pair d (s1, s2)) =
  if (2 <=? len g1) && (2 <=? len g2)
  then Some (mannwhitneyu g1 g2 "two-sided")
  else None.
Proof.
  intros Hg1 Hg2. unfold posthoc_pair. rewrite Hg1, Hg2. cbn [sbind].
  now destruct ((2 <=? len g1) && (2 <=? len g2)).
Qed.

(** C9. On a 2 by 2 table [run_fishers] calls Fisher's exact test and
    reports its p-value and its odds ratio; on a larger table it calls the
    chi-square test of independence on the same table, prints under the
    statistic the warning that chi-square was used and is to be interpreted
    with caution, and returns no odds ratio. *)
Theorem run_fishers_by_shape
  (ct_arr : list (list Z)) (label : str) (sp : Scipy) :
  (shape ct_arr = (2%nat, 2%nat) ->
   first_call (run_fishers ct_arr label) = Some (fisher_exact ct_arr) /\
   forall oddsratio p,
     sp (fisher_exact ct_arr) = Ok (oddsratio, p) ->
     called (run sp (run_fishers ct_arr label)) = [fisher_exact ct_arr] /\
     outcome (run sp (run_fishers ct_arr label)) = Ok (Some oddsratio, p) /\
     stdout (run sp (run_fishers ct_arr label))
     = [ 10%N :: label;
         py "   Fisher's Exact  p = " ++ format_float ".4f" p
         ++ py ",  Odds Ratio = " ++ format_float ".3f" oddsratio;
         py "   " ++ RIGHT_ARROW :: py " "
         ++ (if (p <? 0.05)%float then py "SIGNIFICANT " ++ [CHECK_MARK]
             else py "not significant") ]) /\
  ((2 <= fst (shape ct_arr))%nat -> (2 <= snd (shape ct_arr))%nat ->
   shape ct_arr <> (2%nat, 2%nat) ->
   first_call (run_fishers ct_arr label) = Some (chi2_contingency ct_arr) /\
   forall chi2 p dof expected,
     sp (chi2_contingency ct_arr) = Ok (chi2, p, dof, expected) ->
     called (run sp (run_fishers ct_arr label)) = [chi2_contingency ct_arr] /\
     outcome (run sp (run_fishers ct_arr label)) = Ok (None, p) /\
     stdout (run sp (run_fishers ct_arr label))
     = [ 10%N :: label ++ py "  ["
         ++ str_of_int (Z.of_nat (fst (shape ct_arr)))
         ++ MULT_SIGN :: str_of_int (Z.of_nat (snd (shape ct_arr)))
         ++ py " table]";
         py "   Chi" ++ SUPERSCRIPT_TWO :: py " = " ++ format_float ".3f" chi2
         ++ py ",  df = " ++ str_of_int dof ++ py ",  p = "
         ++ format_float ".4f" p;
         py "   " ++ WARNING_SIGN :: py "  Table > 2" ++ MULT_SIGN ::
         py "2: Chi" ++ SUPERSCRIPT_TWO ::
         py " used; interpret with caution (small n).";
         py "   " ++ RIGHT_ARROW :: py " "
         ++ (if (p <? 0.05)%float then py "SIGNIFICANT " ++ [CHECK_MARK]
             else py "not significant") ]).
Proof.
  unfold run_fishers. split.
  - intros Hshape. rewrite decide_True by assumption.
    split; [reflexivity|]. intros oddsratio p Hfisher.
    rewrite run_scipy_bind, Hfisher. repeat split.
  - intros _ _ Hshape. rewrite decide_False by assumption.
    split; [reflexivity|]. intros chi2 p dof expected Hchi2.
    rewrite run_scipy_bind, Hchi2. repeat split.
Qed.

End PosthocFacts.

Section PosthocLoop.
Import create_clean_csv analysis_3_kruskal_fisher.
Context `{PyRuntime}.

(** Running [s] and then [f]: the lines and the calls of both, unless [s]
    raises. *)
Lemma run_bind {A B} (sp : Scipy) (s : script A) (f : A -> script B) :
  run sp (sbind s f) =
  match outcome (run sp s) with
  | Ok a =>
      {| stdout := stdout (run sp s) ++ stdout (run sp (f a));
         called := called (run sp s) ++ called (run sp (f a));
         outcome := outcome (run sp (f a)) |}
  | Raise e =>
      {| stdout := stdout (run sp s); called := called (run sp s);
         outcome := Raise e |}
  end.
Proof.
  induction s as [a|e|c k IH|l k IH]; cbn [sbind run].
  - cbn. now destruct (run sp (f a)).
  - reflexivity.
  - destruct (sp c) as [r|e]; [|reflexivity].
    cbn zeta. rewrite IH. cbn [outcome stdout called].
    now destruct (outcome (run sp (k r))).
  - cbn zeta. rewrite IH. cbn [outcome stdout called].
    now destruct (outcome (run sp k)).
Qed.

Lemma called_bind {A B} (sp : Scipy) (s : script A) (f : A -> script B) (a : A) :
  outcome (run sp s) = Ok a ->
  called (run sp (sbind s f)) = called (run sp s) ++ called (run sp (f a)) /\
  outcome (run sp (sbind s f)) = outcome (run sp (f a)).
Proof. intros Ha. rewrite run_bind, Ha. split; reflexivity. Qed.

Lemma for_each_ok {A B} (sp : Scipy) (body : A -> script B) (l : list A) :
  (forall x, x ∈ l -> exists y, outcome (run sp (body x)) = Ok y) ->
  called (run sp (for_each l body))
  = concat (map (fun x => called (run sp (body x))) l) /\
  exists ys, outcome (run sp (for_each l body)) = Ok ys.
Proof.
  induction l as [|x l IH]; intros Hl; cbn [for_each].
  - split; [reflexivity|]. now exists [].
  - destruct (Hl x) as [y Hy]; [left|].
    destruct IH as [IHc [ys IHo]]; [intros z Hz; apply Hl; now right|].
    destruct (called_bind sp (body x)
                (fun y => sbind (for_each l body) (fun ys => Ret (y :: ys))) y Hy)
      as [-> ->].
    destruct (called_bind sp (for_each l body) (fun ys => Ret (y :: ys)) ys IHo)
      as [-> ->].
    cbn. rewrite app_nil_r, IHc. split; [reflexivity|]. eauto.
Qed.

Lemma getitem_site_groups (g : str -> list Z) (s : str) :
  s ∈ site_order -> getitem (site_groups g) s = Ret (g s).
Proof.
  unfold site_order. rewrite !elem_of_cons, elem_of_nil.
  intros [->|[->|[->|[->|[]]]]]; reflexivity.
Qed.

Lemma pairs_of_sites :
  Forall (fun s : str * str => fst s ∈ site_order /\ snd s ∈ site_order)
         pairs.
Proof.
  unfold pairs, site_order. cbn [combinations2 map app].
  repeat (constructor;
          [cbn [fst snd]; rewrite !elem_of_cons; auto 10|]).
  constructor.
Qed.

Lemma pairs_in_site_order (s : str * str) :
  s ∈ pairs -> fst s ∈ site_order /\ snd s ∈ site_order.
Proof.
  intros Hs. pose proof pairs_of_sites as Hall.
  rewrite Forall_forall in Hall. now apply Hall.
Qed.

Lemma posthoc_pair_run (sp : Scipy) (g : str -> list Z) (s : str * str) :
  (forall c, exists r, sp c = Ok r) ->
  s ∈ pairs ->
  called (run sp (posthoc_pair (site_groups g) s))
  = (if (2 <=? len (g (fst s))) && (2 <=? len (g (snd s)))
     then [mannwhitneyu (g (fst s)) (g (snd s)) "two-sided"]
     else []) /\
  outcome (run sp (posthoc_pair (site_groups g) s)) = Ok tt.
Proof.
  intros Htotal [H1 H2]%pairs_in_site_order. destruct s as [s1 s2].
  cbn [fst snd] in *. unfold posthoc_pair.
  rewrite (getitem_site_groups g s1 H1), (getitem_site_groups g s2 H2).
  cbn [sbind].
  destruct ((2 <=? len (g s1)) && (2 <=? len (g s2))); [|split; reflexivity].
  cbn [scipy sbind run].
  destruct (Htotal (mannwhitneyu (g s1) (g s2) "two-sided")) as [[u p] ->].
  split; reflexivity.
Qed.

Lemma posthoc_loop_run (sp : Scipy) (g : str -> list Z) :
  (forall c, exists r, sp c = Ok r) ->
  called (run sp (for_each pairs (posthoc_pair (site_groups g))))
  = pairwise_tests g /\
  exists ys, outcome (run sp (for_each pairs (posthoc_pair (site_groups g)))) = Ok ys.
Proof.
  intros Htotal.
  destruct (for_each_ok sp (posthoc_pair (site_groups g)) pairs) as [-> Hout].
  { intros s Hs. exists tt. now apply posthoc_pair_run. }
  split; [|exact Hout].
  unfold pairwise_tests.
  assert (Hsub : forall l : list (str * str), (forall s, s ∈ l -> s ∈ pairs) ->
    concat (map (fun x => called (run sp (posthoc_pair (site_groups g) x))) l)
    = omap (fun s : str * str =>
          if (2 <=? len (g (fst s))) && (2 <=? len (g (snd s)))
          then Some (mannwhitneyu (g (fst s)) (g (snd s)) "two-sided")
          else None) l).
  { induction l as [|s l IH]; intros Hl; [reflexivity|].
    cbn [map concat omap list_omap].
    rewrite (proj1 (posthoc_pair_run sp g s Htotal (Hl s ltac:(left)))).
    rewrite IH by (intros z Hz; apply Hl; now right).
    now destruct ((2 <=? len (g (fst s))) && (2 <=? len (g (snd s)))). }
  now apply Hsub.
Qed.

(** X16. Whatever the Kruskal-Wallis tests return, the script goes on to the
    pairwise tests: with a scipy that answers every call, the calls made
    are the three omnibus tests and then, for the noise ratings and for
    the quality of life, the test of every pair of sites with at least 2
    observations on both sides. *)
Lemma posthoc_ignores_kruskal (sp : Scipy) (df : list CleanRecord) :
  (forall c, exists r, sp c = Ok r) ->
  called (run sp (kruskal_wallis_tests df))
  = [ kruskal (values (floor_groups df));
      kruskal (values (site_noise_groups df));
      kruskal (values (site_qol_groups df)) ]
    ++ pairwise_tests (fun s => group_values df site s col_Q4_noise_rating)
    ++ pairwise_tests (fun s => group_values df site s col_Q11_QoL).
Proof.
  intros Htotal. unfold kruskal_wallis_tests, posthoc, kw_A, kw_B, kw_C.
  destruct (posthoc_loop_run sp (fun s => group_values df site s col_Q4_noise_rating) Htotal)
    as [Hn [yn Hno]].
  destruct (posthoc_loop_run sp (fun s => group_values df site s col_Q11_QoL) Htotal)
    as [Hq [yq Hqo]].
  change (site_groups (fun s => group_values df site s col_Q4_noise_rating))
    with (site_noise_groups df) in *.
  change (site_groups (fun s => group_values df site s col_Q11_QoL))
    with (site_qol_groups df) in *.
  cbn [print scipy sbind run called].
  destruct (Htotal (kruskal (values (floor_groups df)))) as [[sa pa] ->].
  cbn [print scipy sbind run called].
  destruct (Htotal (kruskal (values (site_noise_groups df)))) as [[sb pb] ->].
  cbn [print scipy sbind run called].
  destruct (Htotal (kruskal (values (site_qol_groups df)))) as [[sc pc] ->].
  cbn [print scipy sbind run called].
  rewrite run_bind, Hno. cbn [called]. rewrite Hn.
  cbn [print scipy sbind run called].
  rewrite run_bind, Hqo. cbn [called run]. rewrite Hq.
  now rewrite app_nil_r.
Qed.
End PosthocLoop.

(** C3, on the code. With [eight_respondents] none of the three
    Kruskal-Wallis tests is significant (every p-value is 1), and the
    script goes on to the six pairwise Mann-Whitney tests of the noise
    ratings and the six of the quality of life. *)
Theorem posthoc_runs_without_significance :
  let r := run not_significant
             (@analysis_3_kruskal_fisher.kruskal_wallis_tests plain_runtime
                eight_respondents) in
  outcome r = Ok tt /\
  called r =
  [ kruskal [[1; 2; 1; 2]; [2; 1; 2; 1]];
    kruskal [[1; 2]; [1; 2]; [1; 2]; [1; 2]];
    kruskal [[1; 2]; [1; 2]; [1; 2]; [1; 2]] ]
  ++ repeat (mannwhitneyu [1; 2] [1; 2] "two-sided") 12.
Proof. split; reflexivity. Qed.

Example run_fishers_on_two_tables :
  outcome (run not_significant
             (@analysis_3_kruskal_fisher.run_fishers plain_runtime
                [[5; 0]; [0; 5]] (py "D")))
  = Ok (Some 0%float, 1%float) /\
  outcome (run not_significant
             (@analysis_3_kruskal_fisher.run_fishers plain_runtime
                [[1; 2; 3]; [4; 5; 6]] (py "E")))
  = Ok (None, 1%float) /\
  In (py "   " ++ WARNING_SIGN :: py "  Table > 2" ++ MULT_SIGN ::
      py "2: Chi" ++ SUPERSCRIPT_TWO ::
      py " used; interpret with caution (small n).")
     (stdout (run not_significant
                (@analysis_3_kruskal_fisher.run_fishers plain_runtime
                   [[1; 2; 3]; [4; 5; 6]] (py "E")))).
Proof.
  destruct (@run_fishers_by_shape plain_runtime [[5; 0]; [0; 5]] (py "D")
              not_significant) as [Hfisher _].
  destruct (Hfisher eq_refl) as [_ Hrun].
  destruct (Hrun 0%float 1%float eq_refl) as (_ & Hout & _).
  destruct (@run_fishers_by_shape plain_runtime [[1; 2; 3]; [4; 5; 6]] (py "E")
              not_significant) as [_ Hchi2].
  destruct (Hchi2 ltac:(cbn; lia) ltac:(cbn; lia) ltac:(discriminate))
    as [_ Hrun2].
  destruct (Hrun2 0%float 1%float 0 [] eq_refl) as (_ & Hout2 & Hlines).
  split; [exact Hout|]. split; [exact Hout2|].
  rewrite Hlines. cbn. auto.
Defined.

(** * Further properties *)

(** ** The encoder: failures and records *)

Section EncoderMore.
Import create_clean_csv.
Context `{PyRuntime}.

Lemma cell_error (row : gmap (str) (option (str))) (key : str) (e : exn) :
  cell row key = Raise e ->
  (e = KeyError key /\ row !! key = None) \/
  (e = AttributeError /\ row !! key = Some None).
Proof.
  unfold cell. destruct (row !! key) as [[v|]|]; intros [= <-]; auto.
Qed.

Ltac in_columns := unfold RAW_COLUMNS; repeat first [apply list_elem_of_here | apply list_elem_of_further].

Lemma encode_row_error_cases (idx : Z) (row : gmap (str) (option (str))) (e : exn) :
  encode_row idx row = Raise e ->
  (exists k, k ∈ RAW_COLUMNS /\ cell row k = Raise e) \/
  (e = ValueError /\
   (forall k, k ∈ RAW_COLUMNS -> exists v, row !! k = Some (Some v)) /\
   exists q, (row !! COL_Q4 = Some (Some q) \/ row !! COL_Q8 = Some (Some q)) /\
             rating (strip q) = Raise ValueError).
Proof.
  unfold encode_row.
  repeat match goal with
         | |- context [cell row ?k] =>
             let Hc := fresh "Hc" in
             let raw := fresh "raw" in
             let Hraw := fresh "Hraw" in
             destruct (cell row k) eqn:Hc; simpl;
             [apply cell_ok in Hc as (raw & Hraw & ->)
             |intros [= <-]; left; exists k; split; [in_columns | exact Hc]]
         end.
  intros He. right.
  assert (Hall : forall k, k ∈ RAW_COLUMNS -> exists v, row !! k = Some (Some v)).
  { intros k. unfold RAW_COLUMNS. rewrite !elem_of_cons, elem_of_nil.
    intros Hk. repeat destruct Hk as [->|Hk]; eauto. destruct Hk. }
  repeat match type of He with
         | context [rating ?q] =>
             let Hr := fresh "Hr" in
             destruct (rating q) eqn:Hr; simpl in He;
             [|injection He as <-; pose proof (rating_raises _ _ Hr) as ->;
               split; [reflexivity|]; split; [exact Hall|]; eauto]
         end.
  discriminate.
Qed.

Lemma all_columns_present (row : gmap (str) (option (str))) :
  (forall k, k ∈ RAW_COLUMNS -> exists v, row !! k = Some (Some v)) ->
  forall k, k ∈ RAW_COLUMNS -> exists v, cell row k = Ok v.
Proof.
  intros Hall k Hk. destruct (Hall k Hk) as [v Hv].
  unfold cell. rewrite Hv. eauto.
Qed.

Lemma encode_row_reads_all_columns
  (idx : Z) (row : gmap (str) (option (str))) (r : CleanRecord) :
  encode_row idx row = Ok r ->
  forall k, k ∈ RAW_COLUMNS -> exists v, row !! k = Some (Some v).
Proof.
  intros Hr.
  destruct (encode_row_ok _ _ _ Hr)
    as (site_raw & age_raw & dur_raw & floor_raw & q4 & q5 & q6 & q7 & q8
        & q9 & q10 & q11 & Hcells & _).
  destruct Hcells as (? & ? & ? & ? & ? & ? & ? & ? & ? & ? & ? & ?).
  intros k. unfold RAW_COLUMNS. rewrite !elem_of_cons, elem_of_nil.
  intros Hk. repeat destruct Hk as [->|Hk]; eauto. destruct Hk.
Qed.

(** X3. The encoding of a row fails in three ways only: with the KeyError
    of a column the row lacks, with an AttributeError on a column whose cell
    is [None] (a row shorter than the header), or with a ValueError, when
    all columns are there and the trimmed text of question 4 or 8 is made
    of digits that [int] refuses. *)
Theorem encode_row_error_taxonomy
  (idx : Z) (row : gmap (str) (option (str))) (e : exn) :
  encode_row idx row = Raise e ->
  (exists k, e = KeyError k /\ k ∈ RAW_COLUMNS /\ row !! k = None) \/
  (e = AttributeError /\ exists k, k ∈ RAW_COLUMNS /\ row !! k = Some None) \/
  (e = ValueError /\
   (forall k, k ∈ RAW_COLUMNS -> exists v, row !! k = Some (Some v)) /\
   exists q, (row !! COL_Q4 = Some (Some q) \/ row !! COL_Q8 = Some (Some q)) /\
             isdigit (strip q) = true /\ py_int (strip q) = Raise ValueError).
Proof.
  intros [(k & Hk & Hcell)|(-> & Hall & q & Hq & Hrating)]%encode_row_error_cases.
  - destruct (cell_error _ _ _ Hcell) as [[-> Hnone]|[-> Hnone]]; eauto 10.
  - right. right. split; [reflexivity|]. split; [exact Hall|].
    exists q. split; [exact Hq|]. revert Hrating. unfold rating.
    destruct (isdigit (strip q)); [|discriminate].
    destruct (py_int (strip q)) as [v|e] eqn:Hint; simpl; [discriminate|].
    intros [= ->]. auto.
Qed.

(** X4. A row that lacks one of the twelve columns is never encoded: the
    encoding fails with the KeyError of a lacking column, or with the
    AttributeError of a [None] cell read before it. *)
Theorem missing_column_is_fatal
  (idx : Z) (row : gmap (str) (option (str))) (k : str) :
  k ∈ RAW_COLUMNS -> row !! k = None ->
  exists e, encode_row idx row = Raise e /\
    (e = AttributeError \/
     exists k', e = KeyError k' /\ k' ∈ RAW_COLUMNS /\ row !! k' = None).
Proof.
  intros Hk Hnone. destruct (encode_row idx row) as [r|e] eqn:Hrow.
  - destruct (encode_row_reads_all_columns _ _ _ Hrow k Hk) as [v Hv].
    congruence.
  - exists e. split; [reflexivity|].
    destruct (encode_row_error_cases _ _ _ Hrow)
      as [(k' & Hk' & Hcell)|(_ & Hall & _)].
    + destruct (cell_error _ _ _ Hcell) as [[-> Hn]|[-> _]]; eauto.
    + destruct (Hall k Hk) as [v Hv]. congruence.
Qed.

Lemma ascii_text_of_digits (q : str) :
  forallb is_ascii q = true -> isdigit q = true ->
  q <> [] /\ forallb ascii_isdigit q = true.
Proof.
  intros Hascii Hq. split; [now destruct q|].
  assert (Hall : forallb isdigit_char q = true) by now destruct q.
  clear Hq. induction q as [|c q IH]; [reflexivity|].
  simpl in *. apply andb_prop in Hascii as [Hc Hascii].
  apply andb_prop in Hall as [Hd Hall].
  rewrite IH by assumption. unfold isdigit_char in Hd. rewrite Hc in Hd.
  now rewrite Hd.
Qed.

Lemma rating_of_ascii_text (q : str) :
  forallb is_ascii q = true -> too_many_digits (length q) = false ->
  exists v, rating q = Ok v.
Proof.
  intros Hascii Hlimit. destruct (isdigit q) eqn:Hq.
  - destruct (ascii_text_of_digits q Hascii Hq) as [Hne Hdigits].
    rewrite rating_ascii_digits by assumption. eauto.
  - rewrite rating_not_digits by assumption. eauto.
Qed.

(** X5. A row that has the twelve columns is encoded, with the identifier
    given, whatever its texts are, as long as the trimmed answers to
    questions 4 and 8 are ASCII texts within the limit on integer literals:
    no unrecognised answer makes the encoder fail. *)
Theorem encode_row_accepts_ascii_text
  (idx : Z) (row : gmap (str) (option (str))) :
  (forall k, k ∈ RAW_COLUMNS -> exists v, row !! k = Some (Some v)) ->
  (forall k q, k ∈ [COL_Q4; COL_Q8] -> row !! k = Some (Some q) ->
     forallb is_ascii (strip q) = true /\
     too_many_digits (length (strip q)) = false) ->
  exists r, encode_row idx row = Ok r /\ respondent_id r = idx.
Proof.
  intros Hall Hratings. destruct (encode_row idx row) as [r|e] eqn:Hrow.
  - exists r. split; [reflexivity|].
    destruct (encode_row_ok _ _ _ Hrow)
      as (? & ? & ? & ? & ? & ? & ? & ? & ? & ? & ? & ? & _ & _ & _ & ->).
    reflexivity.
  - exfalso.
    destruct (encode_row_error_cases _ _ _ Hrow)
      as [(k & Hk & Hcell)|(_ & _ & q & Hq & Hrating)].
    + destruct (all_columns_present row Hall k Hk) as [v Hv]. congruence.
    + assert (Hin : exists k, k ∈ [COL_Q4; COL_Q8] /\ row !! k = Some (Some q)).
      { destruct Hq as [Hq|Hq]; [exists COL_Q4|exists COL_Q8];
          (split; [rewrite !elem_of_cons; auto|exact Hq]). }
      destruct Hin as (k & Hk & Hkq).
      destruct (Hratings k q Hk Hkq) as [Hascii Hlimit].
      destruct (rating_of_ascii_text _ Hascii Hlimit) as [v Hv]. congruence.
Qed.

Lemma encode_row_id (idx : Z) (row : gmap (str) (option (str))) (r : CleanRecord) :
  encode_row idx row = Ok r -> respondent_id r = idx.
Proof.
  intros Hrow.
  destruct (encode_row_ok _ _ _ Hrow)
    as (? & ? & ? & ? & ? & ? & ? & ? & ? & ? & ? & ? & _ & _ & _ & ->).
  reflexivity.
Qed.

Lemma encode_rows_lookup (reader : list (gmap (str) (option (str)))) :
  forall idx rows_out,
    encode_rows idx reader = Ok rows_out ->
    forall (i : nat) r,
      rows_out !! i = Some r ->
      exists row, reader !! i = Some row /\
                  encode_row (idx + Z.of_nat i) row = Ok r.
Proof.
  induction reader as [|row reader IH]; simpl; intros idx rows_out.
  - intros [= <-] i r Hi. now rewrite lookup_nil in Hi.
  - destruct (encode_row idx row) as [r0|] eqn:Hrow; simpl; [|discriminate].
    destruct (encode_rows (idx + 1) reader) as [rest|] eqn:Hrest; simpl;
      [|discriminate].
    intros [= <-] [|i] r Hi; simpl in Hi.
    + injection Hi as <-. exists row. split; [reflexivity|].
      now rewrite Z.add_0_r.
    + destruct (IH _ _ Hrest i r Hi) as (row' & Hrow' & Henc).
      exists row'. split; [exact Hrow'|].
      now replace (idx + Z.of_nat (S i)) with (idx + 1 + Z.of_nat i) by lia.
Qed.

Lemma encode_rows_first_error (reader : list (gmap (str) (option (str)))) :
  forall idx e,
    encode_rows idx reader = Raise e ->
    exists (i : nat) row,
      reader !! i = Some row /\
      encode_row (idx + Z.of_nat i) row = Raise e /\
      forall (j : nat) row', (j < i)%nat -> reader !! j = Some row' ->
        exists r, encode_row (idx + Z.of_nat j) row' = Ok r.
Proof.
  induction reader as [|row reader IH]; simpl; intros idx e; [discriminate|].
  destruct (encode_row idx row) as [r0|e0] eqn:Hrow; simpl.
  - destruct (encode_rows (idx + 1) reader) as [rest|e1] eqn:Hrest; simpl;
      [discriminate|].
    intros [= <-]. destruct (IH _ _ Hrest) as (i & row' & Hi & Herr & Hbefore).
    exists (S i), row'. split; [exact Hi|]. split.
    + now replace (idx + Z.of_nat (S i)) with (idx + 1 + Z.of_nat i) by lia.
    + intros [|j] row'' Hj Hlook; simpl in Hlook.
      * injection Hlook as <-. exists r0. now rewrite Z.add_0_r.
      * destruct (Hbefore j row'' ltac:(lia) Hlook) as [r Hr]. exists r.
        now replace (idx + Z.of_nat (S j)) with (idx + 1 + Z.of_nat j) by lia.
  - intros [= <-]. exists 0%nat, row. split; [reflexivity|]. split.
    + now rewrite Z.add_0_r.
    + intros j row' Hj. lia.
Qed.

(** X1. When [main] succeeds, the header has the 20 column names, there is
    one clean record for each row read, in the order read, and the record at
    position i (from 0) has identifier i + 1 and is the encoding of the row
    at that position. *)
Theorem main_numbers_the_rows
  (reader : list (gmap (str) (option (str))))
  (fieldnames : list string) (rows_out : list CleanRecord) :
  main reader = Ok (fieldnames, rows_out) ->
  fieldnames = CleanRecord_keys /\
  length fieldnames = 20%nat /\
  length rows_out = length reader /\
  forall (i : nat) r,
    rows_out !! i = Some r ->
    respondent_id r = Z.of_nat i + 1 /\
    exists row, reader !! i = Some row /\
                encode_row (Z.of_nat i + 1) row = Ok r.
Proof.
  unfold main.
  destruct (encode_rows 1 reader) as [rows|] eqn:Hrows; simpl; [|discriminate].
  destruct rows as [|r0 rows]; simpl; [discriminate|].
  intros [= <- <-]. split; [reflexivity|]. split; [reflexivity|].
  split; [exact (encode_rows_length _ _ _ Hrows)|].
  intros i r Hi.
  destruct (encode_rows_lookup _ _ _ Hrows i r Hi) as (row & Hrow & Henc).
  rewrite Z.add_comm in Henc. split; [exact (encode_row_id _ _ _ Henc)|eauto].
Qed.

(** X2. When [main] fails on an input that has rows, it fails with the
    error of the first row that cannot be encoded; every row before it can
    be encoded, and nothing is handed to the writer. *)
Theorem main_stops_at_first_bad_row
  (reader : list (gmap (str) (option (str)))) (e : exn) :
  reader <> [] ->
  main reader = Raise e ->
  exists (i : nat) row,
    reader !! i = Some row /\
    encode_row (Z.of_nat i + 1) row = Raise e /\
    forall (j : nat) row', (j < i)%nat -> reader !! j = Some row' ->
      exists r, encode_row (Z.of_nat j + 1) row' = Ok r.
Proof.
  intros Hne. unfold main.
  destruct (encode_rows 1 reader) as [rows|e'] eqn:Hrows; simpl.
  - apply encode_rows_length in Hrows.
    destruct rows; [now destruct reader | discriminate].
  - intros [= ->].
    destruct (encode_rows_first_error _ _ _ Hrows) as (i & row & Hi & Herr & Hbefore).
    exists i, row. split; [exact Hi|]. split; [now rewrite Z.add_comm|].
    intros j row' Hj Hlook. destruct (Hbefore j row' Hj Hlook) as [r Hr].
    exists r. now rewrite Z.add_comm.
Qed.

(** X7. In a clean record every ordinal code is the entry of its table for
    the lower-cased label kept beside it, missing when there is none, and
    the noise-spike code is 0 exactly when the kept answer, lower-cased, is
    "no" and 1 otherwise. *)
Theorem codes_match_labels
  (idx : Z) (row : gmap (str) (option (str))) (r : CleanRecord) :
  encode_row idx row = Ok r ->
  age_numeric r = AGE_MAP !! lower (age_group r) /\
  residency_numeric r = DURATION_MAP !! lower (residency_duration r) /\
  floor_numeric r = FLOOR_MAP !! lower (floor_level r) /\
  Q7_concentration r = Q7_MAP !! lower (Q7_concentration_raw r) /\
  Q10_community r = COMMUNITY_MAP !! lower (Q10_community_raw r) /\
  Q11_QoL r = Q11_MAP !! lower (Q11_QoL_raw r) /\
  (Q6_noise_spike r = 0 <-> lower (Q6_spike_raw r) = py "no") /\
  (Q6_noise_spike r = 1 <-> lower (Q6_spike_raw r) <> py "no").
Proof.
  intros Hrow.
  destruct (encode_row_ok _ _ _ Hrow)
    as (? & ? & ? & ? & ? & ? & q6 & ? & ? & ? & ? & ? & _ & _ & _ & ->).
  cbn [age_numeric age_group residency_numeric residency_duration floor_numeric
       floor_level Q7_concentration Q7_concentration_raw Q10_community
       Q10_community_raw Q11_QoL Q11_QoL_raw Q6_noise_spike Q6_spike_raw].
  rewrite !encode_lookup. repeat split; try reflexivity;
    unfold noise_spike; destruct (decide (lower (strip q6) = py "no"));
    try congruence; try discriminate; trivial.
Qed.

(** X8. Each of the ten text columns of a clean record is the trimmed text
    of its raw column, and trimming it again changes nothing. *)
Theorem text_columns_are_trimmed
  (idx : Z) (row : gmap (str) (option (str))) (r : CleanRecord) :
  encode_row idx row = Ok r ->
  Forall (fun col : str * (CleanRecord -> str) =>
            exists raw, row !! fst col = Some (Some raw) /\
                        snd col r = strip raw /\
                        strip (snd col r) = snd col r)
    [ (COL_SITE, site); (COL_AGE, age_group); (COL_DURATION, residency_duration);
      (COL_FLOOR, floor_level); (COL_Q5, Q5_noise_sources);
      (COL_Q6, Q6_spike_raw); (COL_Q7, Q7_concentration_raw);
      (COL_Q9, Q9_convenience_raw); (COL_Q10, Q10_community_raw);
      (COL_Q11, Q11_QoL_raw) ].
Proof.
  intros Hrow.
  destruct (encode_row_ok _ _ _ Hrow)
    as (? & ? & ? & ? & ? & ? & ? & ? & ? & ? & ? & ? & Hcells & _ & _ & ->).
  destruct Hcells as (? & ? & ? & ? & ? & ? & ? & ? & ? & ? & ? & ?).
  repeat (constructor;
          [cbn [fst snd]; eexists; split; [eassumption|];
           split; [reflexivity | apply strip_idempotent]|]).
  constructor.
Qed.

(** X9. [noise_spike] is the lookup in [NOISE_SPIKE_MAP] with the default
    1: [encode(val, NOISE_SPIKE_MAP, 1)] returns what [noise_spike(val)]
    returns. *)
Theorem noise_spike_is_the_map_with_default_one (val : str) :
  encode val NOISE_SPIKE_MAP (Some 1) = Some (noise_spike val).
Proof.
  unfold encode, noise_spike, NOISE_SPIKE_MAP.
  destruct (decide (lower (strip val) = py "no")) as [->|Hne].
  - now rewrite lookup_insert_eq.
  - rewrite lookup_insert_ne by congruence. now rewrite lookup_empty.
Qed.

(** X6. An answer to question 4 or 8 that is a single character beyond
    ASCII which [str.isdigit] accepts and which is no decimal digit (such
    as superscript two) makes the encoding of the row fail with a
    ValueError: the guard lets it through and [int] refuses it. *)
Theorem digit_that_int_refuses_aborts
  (idx : Z) (row : gmap (str) (option (str))) (k q : str) (c : N) :
  (forall k, k ∈ RAW_COLUMNS -> exists v, row !! k = Some (Some v)) ->
  k ∈ [COL_Q4; COL_Q8] ->
  row !! k = Some (Some q) ->
  strip q = [c] ->
  is_ascii c = false ->
  unicode_isdigit c = true ->
  unicode_isspace c = false ->
  unicode_decimal c = None ->
  encode_row idx row = Raise ValueError.
Proof.
  intros Hall Hk Hq Hstrip Hc Hdigit Hspace Hdecimal.
  assert (Hrating : rating (strip q) = Raise ValueError).
  { rewrite Hstrip. unfold rating, isdigit, isdigit_char. cbn [forallb].
    rewrite Hc, Hdigit. cbn [andb].
    unfold py_int, to_ascii. cbn [forallb]. rewrite Hc. cbn [andb map].
    unfold to_ascii_char.
    assert ((c <? 127)%N = false) as ->.
    { unfold is_ascii in Hc. apply N.ltb_ge in Hc. apply N.ltb_ge. lia. }
    rewrite Hspace, Hdecimal. reflexivity. }
  destruct (encode_row idx row) as [r|e] eqn:Hrow.
  - exfalso.
    destruct (encode_row_ok _ _ _ Hrow)
      as (? & ? & ? & ? & q4 & ? & ? & ? & q8 & ? & ? & ? & Hcells & H4 & H8 & _).
    destruct Hcells as (_ & _ & _ & _ & Hq4 & _ & _ & _ & Hq8 & _).
    rewrite !elem_of_cons, elem_of_nil in Hk.
    destruct Hk as [->|[->|[]]]; congruence.
  - f_equal.
    destruct (encode_row_error_cases _ _ _ Hrow)
      as [(k' & Hk' & Hcell)|(-> & _)]; [|reflexivity].
    destruct (all_columns_present row Hall k' Hk') as [v Hv]. congruence.
Qed.
End EncoderMore.

(** ** The correlation script as a whole *)

Section SpearmanScript.
Import create_clean_csv analysis_2_spearman.
Context `{PyRuntime} `{Numpy}.

Lemma for_each_Forall2 {A B} (sp : Scipy) (body : A -> script B)
  (R : A -> B -> Prop) (l : list A) :
  (forall x, x ∈ l -> exists y, outcome (run sp (body x)) = Ok y /\ R x y) ->
  exists ys,
    outcome (run sp (for_each l body)) = Ok ys /\
    Forall2 R l ys /\
    called (run sp (for_each l body))
    = concat (map (fun x => called (run sp (body x))) l) /\
    stdout (run sp (for_each l body))
    = concat (map (fun x => stdout (run sp (body x))) l).
Proof.
  induction l as [|x l IH]; intros Hl; cbn [for_each].
  - exists []. repeat split. constructor.
  - destruct (Hl x) as (y & Hy & HR); [left|].
    destruct IH as (ys & Hys & HF & Hc & Ho); [intros z Hz; apply Hl; now right|].
    exists (y :: ys). rewrite run_bind, Hy. cbn [outcome called stdout].
    rewrite run_bind, Hys. cbn [outcome called stdout run].
    rewrite !app_nil_r, Hc, Ho. repeat split. now constructor.
Qed.

Lemma for_each_stops {A B} (sp : Scipy) (body : A -> script B)
  (before after : list A) (x : A) (e : exn) :
  (forall z, z ∈ before -> exists y, outcome (run sp (body z)) = Ok y) ->
  outcome (run sp (body x)) = Raise e ->
  outcome (run sp (for_each (before ++ x :: after) body)) = Raise e /\
  called (run sp (for_each (before ++ x :: after) body))
  = concat (map (fun z => called (run sp (body z))) (before ++ [x])).
Proof.
  intros Hbefore Hx.
  induction before as [|z before IH]; cbn [app for_each map concat].
  - rewrite run_bind, Hx. cbn [outcome called]. now rewrite app_nil_r.
  - destruct (Hbefore z) as [y Hy]; [left|].
    destruct IH as [IHo IHc]; [intros z' Hz'; apply Hbefore; now right|].
    rewrite run_bind, Hy. cbn [outcome called].
    rewrite run_bind, IHo. cbn [outcome called]. now rewrite IHc.
Qed.

Lemma analyse_pair_run (sp : Scipy) (df : list CleanRecord)
  (pair : column * column * str * str) (rho p : float) :
  sp (spearman_test df pair) = Ok (rho, p) ->
  called (run sp (analyse_pair df pair)) = [spearman_test df pair] /\
  outcome (run sp (analyse_pair df pair))
  = match trend_line df pair with
    | Ok _ => Ok (pair, rho, p, interpret rho p (len (complete_rows df pair)))
    | Raise e => Raise e
    end.
Proof.
  destruct pair as [[[xvar yvar] title] fname].
  unfold trend_line, spearman_test, complete_rows, xvar_of, yvar_of.
  cbn [fst snd].
  intros Hsp. unfold analyse_pair, scatter_spearman.
  rewrite run_scipy_bind, Hsp.
  cbn [print raising sbind run called outcome stdout].
  destruct (polyfit _ _ _) as [z|e]; repeat split.
Qed.

Lemma analyse_pair_calls (sp : Scipy) (df : list CleanRecord)
  (l : list (column * column * str * str)) :
  (forall pair, pair ∈ l -> exists r, sp (spearman_test df pair) = Ok r) ->
  concat (map (fun x => called (run sp (analyse_pair df x))) l)
  = map (spearman_test df) l.
Proof.
  induction l as [|x l IH]; intros Hl; [reflexivity|]. cbn [map concat].
  destruct (Hl x ltac:(left)) as [[rho p] Hsp].
  rewrite (proj1 (analyse_pair_run sp df x rho p Hsp)).
  rewrite IH by (intros z Hz; apply Hl; now right). reflexivity.
Qed.

Lemma narrate_run (sp : Scipy)
  (res : column * column * str * str * float * float * str) :
  called (run sp (narrate res)) = [] /\
  outcome (run sp (narrate res)) = Ok tt /\
  length (stdout (run sp (narrate res))) = 4%nat.
Proof.
  destruct res as [[[[[[xvar yvar] title] fname] rho] p] interp].
  unfold narrate. cbn [print sbind run called outcome stdout].
  destruct (p <? 0.05)%float; repeat split.
Qed.

(** X11. Let scipy answer the four Spearman tests.  When the trend line of
    every chart can be fitted, the script calls exactly the four tests, in
    the order of [PAIRS], each on the rows where both fields are present,
    and ends with one result for each pair, in that order, holding the
    coefficient and the p-value returned and their interpretation for the
    number of such rows.  When the trend line of the chart of a pair cannot
    be fitted, those of the pairs before it being fitted, the script ends
    with the exception of the fit: it has called the tests up to that pair
    and no other. *)
Theorem analysis_2_runs_the_four_tests (sp : Scipy) (df : list CleanRecord) :
  (forall pair, pair ∈ PAIRS -> exists r, sp (spearman_test df pair) = Ok r) ->
  ((forall pair, pair ∈ PAIRS -> exists z, trend_line df pair = Ok z) ->
   called (run sp (analysis_2 df)) = map (spearman_test df) PAIRS /\
   exists results,
     outcome (run sp (analysis_2 df)) = Ok results /\
     Forall2 (fun pair res =>
                exists rho p,
                  sp (spearman_test df pair) = Ok (rho, p) /\
                  res = (pair, rho, p,
                         interpret rho p
                           (len (complete_rows df pair))))
             PAIRS results) /\
  (forall before pair after e,
     PAIRS = before ++ pair :: after ->
     (forall done, done ∈ before -> exists z, trend_line df done = Ok z) ->
     trend_line df pair = Raise e ->
     called (run sp (analysis_2 df)) = map (spearman_test df) (before ++ [pair]) /\
     outcome (run sp (analysis_2 df)) = Raise e).
Proof.
  intros Htotal. split.
  - intros Hfit.
    destruct (for_each_Forall2 sp (analyse_pair df)
                (fun pair res =>
                   exists rho p,
                     sp (spearman_test df pair) = Ok (rho, p) /\
                     res = (pair, rho, p,
                            interpret rho p
                              (len (complete_rows df pair))))
                PAIRS) as (results & Hout & HF & Hcalled & Hstdout).
    { intros pair Hpair. destruct (Htotal pair Hpair) as [[rho p] Hsp].
      destruct (Hfit pair Hpair) as [z Hz].
      destruct (analyse_pair_run sp df pair rho p Hsp) as (_ & Ho).
      rewrite Hz in Ho. eauto 6. }
    destruct (for_each_Forall2 sp narrate (fun _ _ => True) results)
      as (units & Hnout & _ & Hncalled & Hnstdout).
    { intros res _. exists tt. split; [apply narrate_run | exact I]. }
    unfold analysis_2. cbn [print sbind run called outcome stdout].
    rewrite run_bind, Hout. cbn [print sbind run called outcome stdout].
    rewrite run_bind, Hnout. cbn [print sbind run called outcome stdout].
    rewrite Hcalled, (analyse_pair_calls sp df PAIRS Htotal), Hncalled.
    assert (Hnc : concat (map (fun x => called (run sp (narrate x))) results) = []).
    { clear. induction results as [|x l IH]; [reflexivity|]. cbn [map concat].
      now rewrite (proj1 (narrate_run sp x)), IH. }
    rewrite Hnc, !app_nil_r. split; [reflexivity|].
    exists results. split; [reflexivity | exact HF].
  - intros before pair after e Hsplit Hfit Hraise.
    assert (Hin : forall q, q ∈ before ++ [pair] -> q ∈ PAIRS).
    { intros q Hq. rewrite Hsplit. rewrite elem_of_app in *.
      destruct Hq as [Hq|Hq]; [now left|].
      right. apply list_elem_of_singleton in Hq as ->. now left. }
    destruct (for_each_stops sp (analyse_pair df) before after pair e)
      as [Hout Hcalled].
    { intros q Hq. destruct (Htotal q) as [[rho p] Hsp].
      { apply Hin. rewrite elem_of_app. now left. }
      destruct (Hfit q Hq) as [z Hz].
      destruct (analyse_pair_run sp df q rho p Hsp) as (_ & Ho).
      rewrite Hz in Ho. eauto. }
    { destruct (Htotal pair) as [[rho p] Hsp].
      { apply Hin. rewrite elem_of_app. right. now left. }
      destruct (analyse_pair_run sp df pair rho p Hsp) as (_ & Ho).
      now rewrite Hraise in Ho. }
    unfold analysis_2. cbn [print sbind run called outcome stdout].
    rewrite Hsplit, run_bind, Hout. cbn [called outcome].
    rewrite Hcalled. split; [|reflexivity].
    apply analyse_pair_calls. intros q Hq. apply Htotal, Hin, Hq.
Qed.

(** X12. The detailed narrative of a result has four lines; the last one
    is the note that the result is indicative only exactly when the
    interpretation of the result carries the caveat, and the note that the
    pair supports a significant association otherwise. *)
Theorem narrative_agrees_with_interpretation
  (sp : Scipy) (xvar yvar : column) (title fname : str) (rho p : float) (n : Z) :
  let interp := interpret rho p n in
  exists heading figures,
    stdout (run sp (narrate (xvar, yvar, title, fname, rho, p, interp)))
    = [ heading; figures; py "  " ++ RIGHT_ARROW :: py " " ++ interp;
        if has_caveat interp
        then py "  " ++ RIGHT_ARROW ::
             py " Result is indicative only; do NOT over-claim given n=20."
        else py "  " ++ RIGHT_ARROW ::
             py " This pair supports a statistically significant association." ].
Proof.
  cbn zeta. unfold narrate. cbn [print sbind run called outcome stdout].
  assert (Hcaveat : has_caveat (interpret rho p n) = negb (p <? 0.05)%float).
  { unfold interpret. destruct (p <? 0.05)%float; cbn [negb].
    - rewrite app_nil_r.
      destruct (0.7 <=? abs rho)%float, (0.4 <=? abs rho)%float,
        (0 <? rho)%float; reflexivity.
    - rewrite !has_caveat_app, has_caveat_sign. now rewrite !orb_true_r. }
  rewrite Hcaveat. do 2 eexists.
  destruct (p <? 0.05)%float; reflexivity.
Qed.
End SpearmanScript.

(** ** Sample sizes and failures of the group and contingency tests *)

Section KruskalScript.
Import create_clean_csv analysis_3_kruskal_fisher.

Lemma total_cons (k : str) (v : list Z) (d : list (str * list Z)) :
  total ((k, v) :: d) = len v + total d.
Proof. reflexivity. Qed.

Lemma total_without_empty (d : list (str * list Z)) :
  total (filter (fun kv => snd kv <> []) d) = total d.
Proof.
  induction d as [|[k v] d IH]; [reflexivity|].
  rewrite filter_cons. cbn [snd]. destruct (decide (v <> [])) as [Hv|Hv].
  - now rewrite !total_cons, IH.
  - rewrite total_cons, IH. apply dec_stable in Hv. subst v. reflexivity.
Qed.

Lemma len_group_values (df : list CleanRecord) (by_ : CleanRecord -> str)
  (label : str) (outcome : column) :
  len (group_values df by_ label outcome)
  = len (filter (fun r => by_ r = label /\ is_Some (get outcome r)) df).
Proof.
  unfold len. f_equal.
  induction df as [|r df IH]; [reflexivity|].
  rewrite group_values_cons, length_app, IH, filter_cons.
  destruct (decide (by_ r = label)) as [Hl|Hl].
  - destruct (get outcome r) as [z|] eqn:Hz.
    + rewrite decide_True by (split; [assumption | eauto]). reflexivity.
    + rewrite decide_False; [reflexivity|]. intros [_ [z Hz']]. congruence.
  - rewrite decide_False by tauto. reflexivity.
Qed.

Lemma length_filter_either {A} (P Q : A -> Prop) `{forall x, Decision (P x)}
  `{forall x, Decision (Q x)} (l : list A) :
  (forall x, P x -> Q x -> False) ->
  length (filter (fun x => P x \/ Q x) l)
  = (length (filter P l) + length (filter Q l))%nat.
Proof.
  intros Hdisjoint. induction l as [|x l IH]; [reflexivity|].
  rewrite !filter_cons.
  destruct (decide (P x)) as [HP|HP], (decide (Q x)) as [HQ|HQ].
  - destruct (Hdisjoint x HP HQ).
  - rewrite decide_True by auto. cbn [length]. lia.
  - rewrite decide_True by auto. cbn [length]. lia.
  - rewrite decide_False by tauto. exact IH.
Qed.

Lemma total_of_groups (df : list CleanRecord) (by_ : CleanRecord -> str)
  (outcome : column) (order : list (str)) :
  NoDup order ->
  total (map (fun s => (s, group_values df by_ s outcome)) order)
  = len (filter (fun r => by_ r ∈ order /\ is_Some (get outcome r)) df).
Proof.
  induction 1 as [|s order Hs Hnodup IH].
  - cbn. rewrite (list_filter_iff _ (fun _ => False)).
    + unfold len. f_equal. induction df as [|r df IHdf]; [reflexivity|].
      rewrite filter_cons. now rewrite decide_False by tauto.
    + intros r. rewrite elem_of_nil. tauto.
  - cbn [map]. rewrite total_cons, IH, len_group_values. unfold len.
    rewrite <- Nat2Z.inj_add. f_equal.
    rewrite <- length_filter_either.
    + f_equal. apply list_filter_iff. intros r. rewrite elem_of_cons. tauto.
    + intros r [Hr _] [Hin _]. subst s. contradiction.
Qed.

Lemma floor_order_NoDup : NoDup floor_order.
Proof. apply (bool_decide_unpack _). vm_compute. reflexivity. Qed.

Lemma site_order_NoDup : NoDup site_order.
Proof. apply (bool_decide_unpack _). vm_compute. reflexivity. Qed.

(** X14. The sample size reported with a Kruskal-Wallis test is the
    number of records whose category is one of those listed and whose
    outcome is present: records with another floor label or site count in
    no group.  There are at most three floor groups and always four site
    groups. *)
Theorem kruskal_sample_sizes (df : list CleanRecord) :
  total (floor_groups df)
  = len (filter (fun r => floor_level r ∈ floor_order /\
                          is_Some (Q4_noise_rating r)) df) /\
  total (site_noise_groups df)
  = len (filter (fun r => site r ∈ site_order /\
                          is_Some (Q4_noise_rating r)) df) /\
  total (site_qol_groups df)
  = len (filter (fun r => site r ∈ site_order /\ is_Some (Q11_QoL r)) df) /\
  (length (floor_groups df) <= 3)%nat /\
  length (site_noise_groups df) = 4%nat /\
  length (site_qol_groups df) = 4%nat.
Proof.
  split; [|split; [|split; [|split; [|split]]]].
  - unfold floor_groups. rewrite total_without_empty.
    apply (total_of_groups df floor_level col_Q4_noise_rating), floor_order_NoDup.
  - apply (total_of_groups df site col_Q4_noise_rating), site_order_NoDup.
  - apply (total_of_groups df site col_Q11_QoL), site_order_NoDup.
  - unfold floor_groups.
    etransitivity; [apply length_filter|]. rewrite length_map. reflexivity.
  - unfold site_noise_groups. now rewrite length_map.
  - unfold site_qol_groups. now rewrite length_map.
Qed.

Context `{PyRuntime}.

(** X15. When the Kruskal-Wallis test on the floor groups raises, the
    script ends with that exception after the three lines of its banner:
    no other test is called. *)
Theorem kruskal_failure_stops_the_script
  (sp : Scipy) (df : list CleanRecord) (e : exn) :
  sp (kruskal (values (floor_groups df))) = Raise e ->
  outcome (run sp (analysis_3 df)) = Raise e /\
  called (run sp (analysis_3 df)) = [kruskal (values (floor_groups df))] /\
  stdout (run sp (analysis_3 df))
  = [repeat 61%N 70; py "KRUSKAL-WALLIS TESTS"; repeat 61%N 70].
Proof.
  intros Hsp. unfold analysis_3, kruskal_wallis_tests, kw_A.
  cbn [print scipy sbind run called outcome stdout]. rewrite Hsp.
  repeat split.
Qed.

(** X17. A table with fewer than two rows or fewer than two columns is
    sent to the chi-square test like a table larger than 2 by 2: the report
    gives its shape in the heading and, in its third line, the warning that
    the table exceeds 2 by 2; no odds ratio is returned. *)
Theorem run_fishers_small_tables
  (ct_arr : list (list Z)) (label : str) (sp : Scipy) :
  (fst (shape ct_arr) < 2)%nat \/ (snd (shape ct_arr) < 2)%nat ->
  first_call (run_fishers ct_arr label) = Some (chi2_contingency ct_arr) /\
  forall chi2 p dof expected,
    sp (chi2_contingency ct_arr) = Ok (chi2, p, dof, expected) ->
    called (run sp (run_fishers ct_arr label)) = [chi2_contingency ct_arr] /\
    outcome (run sp (run_fishers ct_arr label)) = Ok (None, p) /\
    stdout (run sp (run_fishers ct_arr label))
    = [ 10%N :: label ++ py "  ["
        ++ str_of_int (Z.of_nat (fst (shape ct_arr)))
        ++ MULT_SIGN :: str_of_int (Z.of_nat (snd (shape ct_arr)))
        ++ py " table]";
        py "   Chi" ++ SUPERSCRIPT_TWO :: py " = " ++ format_float ".3f" chi2
        ++ py ",  df = " ++ str_of_int dof ++ py ",  p = "
        ++ format_float ".4f" p;
        py "   " ++ WARNING_SIGN :: py "  Table > 2" ++ MULT_SIGN ::
        py "2: Chi" ++ SUPERSCRIPT_TWO ::
        py " used; interpret with caution (small n).";
        py "   " ++ RIGHT_ARROW :: py " "
        ++ (if (p <? 0.05)%float then py "SIGNIFICANT " ++ [CHECK_MARK]
            else py "not significant") ].
Proof.
  intros Hsmall. unfold run_fishers.
  rewrite decide_False.
  - split; [reflexivity|]. intros chi2 p dof expected Hchi2.
    rewrite run_scipy_bind, Hchi2. repeat split.
  - intros Hshape. rewrite Hshape in Hsmall. cbn in Hsmall. lia.
Qed.

Lemma run_fishers_first_call (ct_arr : list (list Z)) (label : str) :
  first_call (run_fishers ct_arr label)
  = Some (if decide (shape ct_arr = (2%nat, 2%nat))
          then fisher_exact ct_arr else chi2_contingency ct_arr).
Proof. unfold run_fishers. now destruct (decide _). Qed.

Lemma run_fishers_raises (ct_arr : list (list Z)) (label : str)
  (sp : Scipy) (c : call) (e : exn) :
  first_call (run_fishers ct_arr label) = Some c ->
  sp c = Raise e ->
  run sp (run_fishers ct_arr label)
  = {| stdout := []; called := [c]; outcome := Raise e |}.
Proof.
  unfold run_fishers. destruct (decide _); cbn [first_call scipy sbind];
    intros [= <-] Hsp; cbn [run]; now rewrite Hsp.
Qed.

(** X18. When the test of the first contingency analysis raises, the
    contingency part ends with that exception: only the four lines of the
    banner are printed and the other two analyses are not run. *)
Theorem failed_contingency_test_stops_the_script
  (sp : Scipy) (df : list CleanRecord) (c : call) (e : exn) :
  first_call (fisher_D df) = Some c ->
  sp c = Raise e ->
  outcome (run sp (fisher_tests df)) = Raise e /\
  called (run sp (fisher_tests df)) = [c] /\
  length (stdout (run sp (fisher_tests df))) = 4%nat.
Proof.
  intros Hc Hsp. unfold fisher_tests.
  cbn [print sbind run called outcome stdout].
  rewrite run_bind. unfold fisher_D in *.
  rewrite (run_fishers_raises _ _ sp c e Hc Hsp).
  repeat split.
Qed.
End KruskalScript.

(** ** Crosstabs *)

Section Crosstabs.
Import create_clean_csv analysis_3_kruskal_fisher.

Lemma str_ltb_irrefl (a : str) : str_ltb a a = false.
Proof.
  induction a as [|x a IH]; [reflexivity|]. cbn [str_ltb].
  now rewrite N.ltb_irrefl, N.eqb_refl, IH.
Qed.

Lemma str_ltb_trans (a b c : str) :
  str_ltb a b = true -> str_ltb b c = true -> str_ltb a c = true.
Proof.
  revert b c. induction a as [|x a IH]; intros [|y b] [|z c]; cbn [str_ltb];
    try discriminate; try reflexivity.
  intros Hab Hbc.
  apply orb_true_iff in Hab as [Hxy%N.ltb_lt|[Hxy%N.eqb_eq Hab]%andb_prop];
    apply orb_true_iff in Hbc as [Hyz%N.ltb_lt|[Hyz%N.eqb_eq Hbc]%andb_prop];
    apply orb_true_iff.
  - left. apply N.ltb_lt. lia.
  - left. apply N.ltb_lt. lia.
  - left. apply N.ltb_lt. lia.
  - right. apply andb_true_intro. split; [apply N.eqb_eq; lia|]. eauto.
Qed.

Lemma str_ltb_total (a b : str) :
  str_ltb a b = false -> a <> b -> str_ltb b a = true.
Proof.
  revert b. induction a as [|x a IH]; intros [|y b]; cbn [str_ltb];
    try discriminate; try reflexivity; try congruence.
  intros Hab Hne. apply orb_false_iff in Hab as [Hxy%N.ltb_ge Hab].
  apply orb_true_iff. destruct (N.eq_dec x y) as [->|Hxy'].
  - right. rewrite N.eqb_refl in *. cbn [andb] in *.
    apply IH; [assumption | congruence].
  - left. apply N.ltb_lt. lia.
Qed.

Lemma elem_of_insert_sorted (x y : str) (l : list (str)) :
  y ∈ insert_sorted x l <-> y = x \/ y ∈ l.
Proof.
  induction l as [|z l IH]; cbn [insert_sorted].
  - rewrite elem_of_cons. tauto.
  - destruct (str_ltb x z); [rewrite elem_of_cons; tauto|].
    destruct (decide (x = z)) as [->|Hne].
    + rewrite elem_of_cons. tauto.
    + rewrite !elem_of_cons, IH. tauto.
Qed.

Lemma insert_sorted_increasing (x : str) (l : list (str)) :
  increasing l -> increasing (insert_sorted x l).
Proof.
  induction l as [|z l IH]; cbn [insert_sorted increasing].
  - intros _. split; [constructor | exact I].
  - intros [Hz Hl]. destruct (str_ltb x z) eqn:Hxz.
    + cbn [increasing]. split; [|split; assumption].
      constructor; [exact Hxz|].
      eapply Forall_impl; [exact Hz|]. intros w Hw. cbn beta in Hw.
      eapply str_ltb_trans; eassumption.
    + destruct (decide (x = z)) as [->|Hne]; [split; assumption|].
      cbn [increasing]. split; [|auto].
      apply Forall_forall. intros w [->|Hw]%elem_of_insert_sorted.
      * now apply str_ltb_total.
      * rewrite Forall_forall in Hz. auto.
Qed.

Lemma sorted_unique_increasing (l : list (str)) : increasing (sorted_unique l).
Proof.
  unfold sorted_unique. induction l as [|x l IH]; [exact I|].
  cbn [foldr]. now apply insert_sorted_increasing.
Qed.

Lemma increasing_NoDup (l : list (str)) : increasing l -> NoDup l.
Proof.
  induction l as [|x l IH]; [constructor|]. intros [Hx Hl].
  constructor; [|auto]. intros Hin. rewrite Forall_forall in Hx.
  specialize (Hx x Hin). now rewrite str_ltb_irrefl in Hx.
Qed.

Lemma elem_of_sorted_unique (x : str) (l : list (str)) :
  x ∈ sorted_unique l <-> x ∈ l.
Proof.
  unfold sorted_unique. induction l as [|y l IH]; [reflexivity|].
  cbn [foldr]. rewrite elem_of_insert_sorted, IH, elem_of_cons. tauto.
Qed.

Lemma sorted_unique_NoDup (l : list (str)) : NoDup (sorted_unique l).
Proof. apply increasing_NoDup, sorted_unique_increasing. Qed.

Lemma length_sorted_unique (l : list (str)) :
  length (sorted_unique l) = length (remove_dups l).
Proof.
  apply Permutation_length, NoDup_Permutation.
  - apply sorted_unique_NoDup.
  - apply NoDup_remove_dups.
  - intros x. now rewrite elem_of_sorted_unique, elem_of_remove_dups.
Qed.

Lemma len_filter_either {A} (P Q : A -> Prop) `{forall x, Decision (P x)}
  `{forall x, Decision (Q x)} (l : list A) :
  (forall x, P x -> Q x -> False) ->
  len (filter (fun x => P x \/ Q x) l) = len (filter P l) + len (filter Q l).
Proof.
  intros Hdisjoint. unfold len. rewrite <- Nat2Z.inj_add. f_equal.
  induction l as [|x l IH]; [reflexivity|].
  rewrite !filter_cons.
  destruct (decide (P x)) as [HP|HP], (decide (Q x)) as [HQ|HQ].
  - destruct (Hdisjoint x HP HQ).
  - rewrite decide_True by auto. cbn [length]. lia.
  - rewrite decide_True by auto. cbn [length]. lia.
  - rewrite decide_False by tauto. exact IH.
Qed.

Lemma filter_nothing {A} (P : A -> Prop) `{forall x, Decision (P x)} (l : list A) :
  (forall x, ~ P x) -> len (filter P l) = 0.
Proof.
  intros HP. induction l as [|x l IH]; [reflexivity|].
  rewrite filter_cons. now rewrite decide_False by apply HP.
Qed.

Lemma filter_everything {A} (P : A -> Prop) `{forall x, Decision (P x)} (l : list A) :
  (forall x, x ∈ l -> P x) -> filter P l = l.
Proof.
  induction l as [|x l IH]; intros HP; [reflexivity|].
  rewrite filter_cons_True by (apply HP; left).
  f_equal. apply IH. intros y Hy. apply HP. now right.
Qed.

Lemma row_sum (r : str) (columns : list (str))
  (present : list (str * str)) :
  NoDup columns ->
  foldr Z.add 0
    (map (fun c => len (filter (fun rc => rc = (r, c)) present)) columns)
  = len (filter (fun rc => fst rc = r /\ snd rc ∈ columns) present).
Proof.
  induction 1 as [|c columns Hc Hnodup IH]; cbn [map foldr].
  - symmetry. apply filter_nothing. intros rc [_ Hin]. now apply elem_of_nil in Hin.
  - rewrite IH, <- len_filter_either.
    + f_equal. f_equal. apply list_filter_iff. intros [r' c'].
      cbn [fst snd]. rewrite elem_of_cons. split.
      * intros [[= -> ->]|[-> Hin]]; auto.
      * intros [-> [->|Hin]]; auto.
    + intros [r' c'] [= -> ->] [_ Hin]. contradiction.
Qed.

Lemma table_sum (index columns : list (str))
  (present : list (str * str)) :
  NoDup index -> NoDup columns ->
  cell_sum
    (map (fun r => map (fun c => len (filter (fun rc => rc = (r, c)) present))
                       columns) index)
  = len (filter (fun rc => fst rc ∈ index /\ snd rc ∈ columns) present).
Proof.
  intros Hindex Hcolumns. unfold cell_sum.
  induction Hindex as [|r index Hr Hnodup IH]; cbn [map foldr].
  - symmetry. apply filter_nothing. intros rc [Hin _]. now apply elem_of_nil in Hin.
  - rewrite IH, row_sum by assumption. rewrite <- len_filter_either.
    + f_equal. f_equal. apply list_filter_iff. intros [r' c'].
      cbn [fst snd]. rewrite elem_of_cons. tauto.
    + intros [r' c']. cbn [fst snd]. intros [-> _] [Hin _]. contradiction.
Qed.

(** X19. A crosstab is rectangular, its cells are not negative, and they
    add up to the number of pairs with both labels present. *)
Theorem crosstab_counts_every_pair_once
  (cells : list (option (str) * option (str))) :
  Forall (fun row => length row = snd (shape (crosstab cells))) (crosstab cells) /\
  Forall (Forall (fun n => 0 <= n)) (crosstab cells) /\
  cell_sum (crosstab cells) = len (present_pairs cells).
Proof.
  unfold crosstab. fold (present_pairs cells).
  set (present := present_pairs cells).
  set (index := sorted_unique (map fst present)).
  set (columns := sorted_unique (map snd present)).
  split; [|split].
  - destruct index as [|r index]; [constructor|].
    cbn [map shape snd]. rewrite length_map.
    constructor; [now rewrite length_map|].
    apply Forall_forall. intros row [r' [-> _]]%list_elem_of_fmap.
    now rewrite length_map.
  - apply Forall_forall. intros row [r' [-> _]]%list_elem_of_fmap.
    apply Forall_forall. intros n [c' [-> _]]%list_elem_of_fmap.
    unfold len. lia.
  - rewrite table_sum by apply sorted_unique_NoDup.
    f_equal. f_equal. apply filter_everything. intros [r c] Hin.
    cbn [fst snd]. subst index columns. rewrite !elem_of_sorted_unique.
    split; apply list_elem_of_fmap; eexists; (split; [|exact Hin]); reflexivity.
Qed.

Lemma sorted_unique_nil_iff (l : list (str)) : sorted_unique l = [] <-> l = [].
Proof.
  split; [|now intros ->]. intros Hs. destruct l as [|x l]; [reflexivity|].
  assert (Hx : x ∈ sorted_unique (x :: l)) by (apply elem_of_sorted_unique; left).
  rewrite Hs in Hx. now apply elem_of_nil in Hx.
Qed.

Context `{PyRuntime}.

(** X20. A crosstab has one row for each distinct row label and one column
    for each distinct column label among the pairs with both labels
    present; so [run_fishers] calls Fisher's exact test on it exactly when
    there are two of each. *)
Theorem crosstab_shape_counts_labels
  (cells : list (option (str) * option (str))) (label : str) :
  let rows := length (remove_dups (map fst (present_pairs cells))) in
  let columns := length (remove_dups (map snd (present_pairs cells))) in
  shape (crosstab cells) = (rows, columns) /\
  (first_call (run_fishers (crosstab cells) label)
   = Some (fisher_exact (crosstab cells))
   <-> rows = 2%nat /\ columns = 2%nat).
Proof.
  cbn zeta.
  assert (Hshape : shape (crosstab cells)
                   = (length (remove_dups (map fst (present_pairs cells))),
                      length (remove_dups (map snd (present_pairs cells))))).
  { rewrite <- !length_sorted_unique.
    unfold crosstab. fold (present_pairs cells).
    destruct (present_pairs cells) as [|[r c] present] eqn:Hpresent;
      [reflexivity|].
    destruct (sorted_unique (map fst ((r, c) :: present))) as [|r0 index] eqn:Hindex.
    { apply (proj1 (sorted_unique_nil_iff _)) in Hindex. discriminate. }
    cbn [map]. unfold shape. cbn [length]. now rewrite !length_map. }
  split; [exact Hshape|].
  unfold run_fishers. rewrite Hshape.
  destruct (decide _) as [Heq|Hne]; cbn [first_call scipy sbind].
  - injection Heq as Hr Hc. split; auto.
  - split; [discriminate|]. intros [Hr Hc]. rewrite Hr, Hc in Hne. congruence.
Qed.
End Crosstabs.

(** ** Noise sources *)

Section NoiseSources.
Context `{PyRuntime}.

Lemma answers_naming_cons (key : str) (src : loaded) (column : list loaded) :
  answers_naming key (src :: column)
  = bit (names key src) + answers_naming key column.
Proof.
  unfold answers_naming, len. rewrite filter_cons.
  destruct (names key src); cbn [bit].
  - rewrite decide_True by exact I. cbn [length]. lia.
  - rewrite decide_False by (intros []). lia.
Qed.

Lemma final_count_answer (src : loaded) (a b c d : Z) :
  analysis_final.count_answer src analysis_final.source_map
    [ (py "Road Traffic / MRT", a); (py "Religious Activities", b);
      (py "Commercial Events" ++ 10%N :: py "(Busking, Festivals)", c);
      (py "Construction /" ++ 10%N :: py "Renovation", d) ]
  = Ok [ (py "Road Traffic / MRT", a + bit (names (py "Road Traffic / MRT") src));
         (py "Religious Activities", b + bit (names (py "Religious Activities") src));
         (py "Commercial Events" ++ 10%N :: py "(Busking, Festivals)",
          c + bit (names (py "Commercial Events") src));
         (py "Construction /" ++ 10%N :: py "Renovation",
          d + bit (names (py "Construction / Renovation") src)) ].
Proof.
  destruct src as [s|].
  - unfold analysis_final.source_map. cbn [analysis_final.count_answer names analysis_final.str_of].
    destruct (contains (lower (py "Road Traffic / MRT")) (lower s)),
      (contains (lower (py "Religious Activities")) (lower s)),
      (contains (lower (py "Commercial Events")) (lower s)),
      (contains (lower (py "Construction / Renovation")) (lower s));
      cbn [bit]; rewrite ?Z.add_0_r; reflexivity.
  - cbn [names bit]. rewrite !Z.add_0_r. reflexivity.
Qed.

Lemma final_count_answers (column : list loaded) :
  forall a b c d,
  analysis_final.count_answers column
    [ (py "Road Traffic / MRT", a); (py "Religious Activities", b);
      (py "Commercial Events" ++ 10%N :: py "(Busking, Festivals)", c);
      (py "Construction /" ++ 10%N :: py "Renovation", d) ]
  = Ok [ (py "Road Traffic / MRT", a + answers_naming (py "Road Traffic / MRT") column);
         (py "Religious Activities", b + answers_naming (py "Religious Activities") column);
         (py "Commercial Events" ++ 10%N :: py "(Busking, Festivals)",
          c + answers_naming (py "Commercial Events") column);
         (py "Construction /" ++ 10%N :: py "Renovation",
          d + answers_naming (py "Construction / Renovation") column) ].
Proof.
  induction column as [|src column IH]; intros a b c d.
  - cbn [analysis_final.count_answers]. unfold answers_naming. cbn.
    now rewrite !Z.add_0_r.
  - cbn [analysis_final.count_answers]. rewrite final_count_answer. cbn [bind].
    rewrite IH, !answers_naming_cons, !Z.add_assoc. reflexivity.
Qed.

(** X21. In analysis_final.py the count of a noise source is the number of
    answers whose lower-cased text contains the lower-cased keyword of the
    source; an answer counts for every source it names, and a missing
    answer for none.  No count is negative or exceeds the number of
    answers. *)
Theorem final_counts_per_keyword (column : list loaded) :
  analysis_final.counts column
  = Ok (keyword_counts analysis_final.source_map column) /\
  Forall (fun kc => 0 <= snd kc <= len column)
         (keyword_counts analysis_final.source_map column) /\
  forall key src,
    answers_naming key (src :: column)
    = (if names key src then 1 else 0) + answers_naming key column.
Proof.
  split; [|split].
  - unfold analysis_final.counts, keyword_counts.
    exact (final_count_answers column 0 0 0 0).
  - apply Forall_forall. intros kc [kl [-> _]]%list_elem_of_fmap.
    cbn [snd]. unfold answers_naming, len.
    pose proof (length_filter (fun src => Is_true (names (fst kl) src)) column).
    lia.
  - intros key src. apply answers_naming_cons.
Qed.

Lemma descriptives_count_answer (s : str) (a b c d : Z) :
  analysis_1_descriptives.count_answer (Text s)
    analysis_1_descriptives.source_keywords
    [ (py "Road Traffic / MRT", a); (py "Religious Activities", b);
      (py "Commercial Events" ++ 10%N :: py "(Busking, Festivals)", c);
      (py "Construction / Renovation", d) ]
  = Ok [ (py "Road Traffic / MRT", a + bit (names (py "Road Traffic / MRT") (Text s)));
         (py "Religious Activities", b + bit (names (py "Religious Activities") (Text s)));
         (py "Commercial Events" ++ 10%N :: py "(Busking, Festivals)",
          c + bit (names (py "Commercial Events") (Text s)));
         (py "Construction / Renovation",
          d + bit (names (py "Construction / Renovation") (Text s))) ].
Proof.
  unfold analysis_1_descriptives.source_keywords.
  cbn [analysis_1_descriptives.count_answer analysis_1_descriptives.lower_of
       names bind].
  destruct (contains (lower (py "Road Traffic / MRT")) (lower s)),
    (contains (lower (py "Religious Activities")) (lower s)),
    (contains (lower (py "Commercial Events")) (lower s)),
    (contains (lower (py "Construction / Renovation")) (lower s));
    cbn [bit]; rewrite ?Z.add_0_r; reflexivity.
Qed.

Lemma descriptives_count_answers (column : list loaded) :
  forall a b c d,
  analysis_1_descriptives.count_answers column
    [ (py "Road Traffic / MRT", a); (py "Religious Activities", b);
      (py "Commercial Events" ++ 10%N :: py "(Busking, Festivals)", c);
      (py "Construction / Renovation", d) ]
  = if existsb is_nan column then Raise AttributeError
    else
      Ok [ (py "Road Traffic / MRT", a + answers_naming (py "Road Traffic / MRT") column);
           (py "Religious Activities", b + answers_naming (py "Religious Activities") column);
           (py "Commercial Events" ++ 10%N :: py "(Busking, Festivals)",
            c + answers_naming (py "Commercial Events") column);
           (py "Construction / Renovation",
            d + answers_naming (py "Construction / Renovation") column) ].
Proof.
  induction column as [|src column IH]; intros a b c d.
  - cbn [analysis_1_descriptives.count_answers]. unfold answers_naming. cbn.
    now rewrite !Z.add_0_r.
  - cbn [analysis_1_descriptives.count_answers]. destruct src as [s|].
    + rewrite descriptives_count_answer. cbn [bind existsb is_nan orb].
      rewrite IH. destruct (existsb is_nan column); [reflexivity|].
      rewrite !answers_naming_cons, !Z.add_assoc. reflexivity.
    + reflexivity.
Qed.

Theorem descriptives_counts_or_fails (column : list loaded) :
  analysis_1_descriptives.counts column
  = if existsb is_nan column then Raise AttributeError
    else Ok (keyword_counts analysis_1_descriptives.source_keywords column).
Proof.
  unfold analysis_1_descriptives.counts, keyword_counts.
  exact (descriptives_count_answers column 0 0 0 0).
Qed.

(** X22. On a column with no missing answer analysis_1_descriptives.py and
    analysis_final.py count the same numbers, source by source.  With a
    missing answer the first fails with an AttributeError, and the second
    counts as if the missing answers were not there. *)
Theorem noise_source_counts_agree (column : list loaded) :
  (existsb is_nan column = false ->
   exists c1 c2,
     analysis_1_descriptives.counts column = Ok c1 /\
     analysis_final.counts column = Ok c2 /\
     map snd c1 = map snd c2) /\
  (existsb is_nan column = true ->
   analysis_1_descriptives.counts column = Raise AttributeError /\
   analysis_final.counts column
   = analysis_final.counts (filter (fun src => is_nan src = false) column)).
Proof.
  unfold analysis_1_descriptives.counts, analysis_final.counts.
  cbn [map snd analysis_1_descriptives.source_keywords analysis_final.source_map].
  rewrite descriptives_count_answers, !final_count_answers. split.
  - intros ->. do 2 eexists. repeat split.
  - intros ->. split; [reflexivity|].
    assert (Hsame : forall key,
              answers_naming key column
              = answers_naming key (filter (fun src => is_nan src = false) column)).
    { intros key. unfold answers_naming. f_equal.
      induction column as [|src column IH]; [reflexivity|].
      rewrite !filter_cons. destruct src as [s|]; cbn [is_nan names].
      + rewrite (decide_True (P := false = false)) by reflexivity.
        rewrite filter_cons. cbn [names].
        destruct (decide (Is_true (contains (lower key) (lower s)))); now rewrite IH.
      + rewrite (decide_False (P := true = false)) by discriminate.
        rewrite decide_False by (intros []). exact IH. }
    now rewrite <- !Hsame.
Qed.
End NoiseSources.

(** ** Codes and labels *)

Section CodesAndLabels.
Import create_clean_csv analysis_3_kruskal_fisher.
Context `{PyRuntime}.

Lemma code_of_table_within (lo hi : Z) (mapping : gmap str Z) (val : str) (code : Z) :
  codes_within lo hi mapping ->
  encode val mapping None = Some code -> lo <= code <= hi.
Proof.
  intros Hm Hcode. pose proof (encode_within lo hi mapping val Hm) as Hw.
  now rewrite Hcode in Hw.
Qed.

(** X10. Every code the encoder gives for age, residency, concentration,
    community and quality of life has a label in the contingency analyses:
    no encoded answer is left out of a crosstab for want of a label. *)
Theorem encoder_codes_have_labels (val : str) (code : Z) :
  (encode val COMMUNITY_MAP None = Some code ->
   is_Some (label_of q10_labels code)) /\
  (encode val Q11_MAP None = Some code -> is_Some (label_of q11_labels code)) /\
  (encode val AGE_MAP None = Some code -> is_Some (label_of age_labels code)) /\
  (encode val Q7_MAP None = Some code -> is_Some (label_of q7_labels code)) /\
  (encode val DURATION_MAP None = Some code ->
   is_Some (label_of dur_labels code)).
Proof.
  repeat split; intros Hcode.
  - apply (code_of_table_within 0 2) in Hcode; [|apply COMMUNITY_MAP_codes].
    assert (code = 0 \/ code = 1 \/ code = 2) as [-> | [-> | ->]] by lia; eexists; reflexivity.
  - apply (code_of_table_within 1 4) in Hcode; [|apply Q11_MAP_codes].
    assert (code = 1 \/ code = 2 \/ code = 3 \/ code = 4)
      as [-> | [-> | [-> | ->]]] by lia; eexists; reflexivity.
  - apply (code_of_table_within 1 4) in Hcode; [|apply AGE_MAP_codes].
    assert (code = 1 \/ code = 2 \/ code = 3 \/ code = 4)
      as [-> | [-> | [-> | ->]]] by lia; eexists; reflexivity.
  - apply (code_of_table_within 1 6) in Hcode; [|apply Q7_MAP_codes].
    assert (code = 1 \/ code = 2 \/ code = 3 \/ code = 4 \/ code = 5 \/ code = 6)
      as [-> | [-> | [-> | [-> | [-> | ->]]]]] by lia; eexists; reflexivity.
  - apply (code_of_table_within 1 4) in Hcode; [|apply DURATION_MAP_codes].
    assert (code = 1 \/ code = 2 \/ code = 3 \/ code = 4)
      as [-> | [-> | [-> | ->]]] by lia; eexists; reflexivity.
Qed.

End CodesAndLabels.

(** ** Worked examples *)

Lemma raw_row_has_all_columns (q4 q6 q8 q10 : str) (k : str) :
  k ∈ RAW_COLUMNS -> exists v, raw_row q4 q6 q8 q10 !! k = Some (Some v).
Proof.
  unfold RAW_COLUMNS. rewrite !elem_of_cons, elem_of_nil.
  intros Hk. repeat destruct Hk as [->|Hk]; [eexists; reflexivity ..|destruct Hk].
Qed.

Example two_rows_are_numbered :
  exists rows_out,
    @create_clean_csv.main plain_runtime
      [ raw_row (py "7") (py "No") (py "6") (py "Yes");
        raw_row (py "3") (py "Yes") (py "8") (py "No") ]
    = Ok (create_clean_csv.CleanRecord_keys, rows_out) /\
    length rows_out = 2%nat /\
    map create_clean_csv.respondent_id rows_out = [1; 2].
Proof.
  eexists. split; [reflexivity|].
  destruct (@main_numbers_the_rows plain_runtime
              [ raw_row (py "7") (py "No") (py "6") (py "Yes");
                raw_row (py "3") (py "Yes") (py "8") (py "No") ] _ _ eq_refl)
    as (_ & _ & Hlen & _).
  split; [exact Hlen | reflexivity].
Defined.

Example main_stops_at_the_row_without_air :
  exists (i : nat) row,
    reader_with_bad_row !! i = Some row /\
    @create_clean_csv.encode_row plain_runtime (Z.of_nat i + 1) row
    = Raise (KeyError create_clean_csv.COL_Q8) /\
    forall (j : nat) row', (j < i)%nat -> reader_with_bad_row !! j = Some row' ->
      exists r, @create_clean_csv.encode_row plain_runtime (Z.of_nat j + 1) row'
                = Ok r.
Proof.
  apply (@main_stops_at_first_bad_row plain_runtime reader_with_bad_row
           (KeyError create_clean_csv.COL_Q8)).
  - unfold reader_with_bad_row. discriminate.
  - reflexivity.
Defined.

Example row_without_air_fails_with_its_column :
  exists k, k ∈ RAW_COLUMNS /\ row_without_air !! k = None /\
    @create_clean_csv.encode_row plain_runtime 1 row_without_air
    = Raise (KeyError k).
Proof.
  destruct (@encode_row_error_taxonomy plain_runtime 1 row_without_air
              (KeyError create_clean_csv.COL_Q8) eq_refl)
    as [(k & Hk & Hin & Hnone)|[(Hattr & _)|(Hvalue & _)]].
  - exists k. rewrite <- Hk. auto.
  - discriminate Hattr.
  - discriminate Hvalue.
Defined.

Example row_without_air_is_never_encoded :
  exists e,
    @create_clean_csv.encode_row plain_runtime 1 row_without_air = Raise e /\
    (e = AttributeError \/
     exists k, e = KeyError k /\ k ∈ RAW_COLUMNS /\ row_without_air !! k = None).
Proof.
  apply (@missing_column_is_fatal plain_runtime 1 row_without_air
           create_clean_csv.COL_Q8).
  - unfold RAW_COLUMNS. do 8 apply list_elem_of_further. apply list_elem_of_here.
  - reflexivity.
Defined.

Example unrecognised_answers_are_encoded :
  exists r,
    @create_clean_csv.encode_row plain_runtime 9
      (raw_row (py "loud") (py "sometimes") (py "n/a") (py "dunno")) = Ok r /\
    create_clean_csv.respondent_id r = 9.
Proof.
  apply (@encode_row_accepts_ascii_text plain_runtime).
  - apply raw_row_has_all_columns.
  - intros k q. rewrite !elem_of_cons, elem_of_nil.
    intros [->|[->|[]]] Hq; vm_compute in Hq; injection Hq as <-;
      split; reflexivity.
Defined.

Example superscript_two_aborts :
  @create_clean_csv.encode_row superscript_runtime 1
    (raw_row [SUPERSCRIPT_TWO] (py "No") (py "6") (py "Yes"))
  = Raise ValueError.
Proof.
  apply (@digit_that_int_refuses_aborts superscript_runtime 1 _
           create_clean_csv.COL_Q4 [SUPERSCRIPT_TWO] SUPERSCRIPT_TWO).
  - apply raw_row_has_all_columns.
  - apply list_elem_of_here.
  - reflexivity.
  - reflexivity.
  - reflexivity.
  - reflexivity.
  - reflexivity.
  - reflexivity.
Defined.

Example codes_of_a_row_match_its_labels :
  exists r,
    @create_clean_csv.encode_row plain_runtime 1
      (raw_row (py "7") (py " NO ") (py "6") (py "Maybe")) = Ok r /\
    create_clean_csv.Q10_community r
    = create_clean_csv.COMMUNITY_MAP
        !! @lower plain_runtime (create_clean_csv.Q10_community_raw r) /\
    create_clean_csv.Q6_noise_spike r = 0.
Proof.
  eexists. split; [reflexivity|].
  destruct (@codes_match_labels plain_runtime 1
              (raw_row (py "7") (py " NO ") (py "6") (py "Maybe")) _ eq_refl)
    as (_ & _ & _ & _ & Hq10 & _ & Hq6 & _).
  split; [exact Hq10 | apply Hq6; reflexivity].
Defined.

Example text_of_a_row_is_trimmed :
  exists r,
    @create_clean_csv.encode_row plain_runtime 1
      (raw_row (py "7") (py " NO ") (py "6") (py "Maybe")) = Ok r /\
    create_clean_csv.Q6_spike_raw r = py "NO" /\
    @strip plain_runtime (create_clean_csv.Q6_spike_raw r)
    = create_clean_csv.Q6_spike_raw r.
Proof.
  eexists. split; [reflexivity|].
  pose proof (@text_columns_are_trimmed plain_runtime 1
                (raw_row (py "7") (py " NO ") (py "6") (py "Maybe")) _ eq_refl)
    as Hall.
  rewrite List.Forall_forall in Hall.
  destruct (Hall (create_clean_csv.COL_Q6, create_clean_csv.Q6_spike_raw))
    as (raw & _ & _ & Htrim).
  { cbn. auto 10. }
  split; [reflexivity | exact Htrim].
Defined.

Example four_tests_on_two_respondents :
  called (run not_significant
            (@analysis_2_spearman.analysis_2 plain_runtime strict_numpy
               two_respondents))
  = [ spearmanr [5; 7] [3; 4]; spearmanr [5; 7] [2; 3];
      spearmanr [6; 6] [2; 3]; spearmanr [5; 7] [6; 6] ] /\
  called (run not_significant
            (@analysis_2_spearman.analysis_2 plain_runtime strict_numpy
               missing_noise))
  = [ spearmanr [] [] ] /\
  outcome (run not_significant
             (@analysis_2_spearman.analysis_2 plain_runtime strict_numpy
                missing_noise))
  = Raise LinAlgError.
Proof.
  split.
  - destruct (@analysis_2_runs_the_four_tests plain_runtime strict_numpy
                not_significant two_respondents) as [Hfitted _].
    { intros pair _. eexists. reflexivity. }
    destruct Hfitted as [Hcalled _].
    { intros pair Hpair. unfold analysis_2_spearman.PAIRS in Hpair.
      rewrite !elem_of_cons, elem_of_nil in Hpair.
      destruct Hpair as [-> | [-> | [-> | [-> | []]]]]; eexists; reflexivity. }
    rewrite Hcalled. reflexivity.
  - destruct (@analysis_2_runs_the_four_tests plain_runtime strict_numpy
                not_significant missing_noise) as [_ Hstops].
    { intros pair _. eexists. reflexivity. }
    destruct (Hstops [] _ _ LinAlgError eq_refl) as [Hcalled Hout].
    { intros done Hdone. now apply elem_of_nil in Hdone. }
    { reflexivity. }
    split; [exact Hcalled | exact Hout].
Defined.

Example one_floor_group_stops_the_script :
  outcome (run strict_scipy
             (@analysis_3_kruskal_fisher.analysis_3 plain_runtime one_respondent))
  = Raise ValueError /\
  called (run strict_scipy
            (@analysis_3_kruskal_fisher.analysis_3 plain_runtime one_respondent))
  = [kruskal [[5]]].
Proof.
  destruct (@kruskal_failure_stops_the_script plain_runtime strict_scipy
              one_respondent ValueError eq_refl) as (Hout & Hcalled & _).
  split; [exact Hout | exact Hcalled].
Defined.

Example pairwise_tests_of_eight_respondents :
  called (run not_significant
            (@analysis_3_kruskal_fisher.kruskal_wallis_tests plain_runtime
               eight_respondents))
  = [ kruskal [[1; 2; 1; 2]; [2; 1; 2; 1]];
      kruskal [[1; 2]; [1; 2]; [1; 2]; [1; 2]];
      kruskal [[1; 2]; [1; 2]; [1; 2]; [1; 2]] ]
    ++ repeat (mannwhitneyu [1; 2] [1; 2] "two-sided") 12.
Proof.
  rewrite (@posthoc_ignores_kruskal plain_runtime not_significant
             eight_respondents).
  - reflexivity.
  - intros c. destruct c; eexists; reflexivity.
Defined.

Example one_row_table_goes_to_chi_square :
  outcome (run not_significant
             (@analysis_3_kruskal_fisher.run_fishers plain_runtime
                [[4; 4]] (py "D")))
  = Ok (None, 1%float) /\
  stdout (run not_significant
            (@analysis_3_kruskal_fisher.run_fishers plain_runtime
               [[4; 4]] (py "D"))) !! 2%nat
  = Some (py "   " ++ WARNING_SIGN :: py "  Table > 2" ++ MULT_SIGN ::
          py "2: Chi" ++ SUPERSCRIPT_TWO ::
          py " used; interpret with caution (small n).").
Proof.
  destruct (@run_fishers_small_tables plain_runtime [[4; 4]] (py "D")
              not_significant) as [_ Hrun].
  { left. cbn. lia. }
  destruct (Hrun 0%float 1%float 0 [] eq_refl) as (_ & Hout & Hlines).
  split; [exact Hout | now rewrite Hlines].
Defined.

Example empty_table_stops_the_contingency_tests :
  outcome (run strict_scipy
             (@analysis_3_kruskal_fisher.fisher_tests plain_runtime []))
  = Raise ValueError /\
  called (run strict_scipy
            (@analysis_3_kruskal_fisher.fisher_tests plain_runtime []))
  = [chi2_contingency []].
Proof.
  destruct (@failed_contingency_test_stops_the_script plain_runtime
              strict_scipy [] (chi2_contingency []) ValueError eq_refl eq_refl)
    as (Hout & Hcalled & _).
  split; [exact Hout | exact Hcalled].
Defined.

Example noise_answers_are_counted :
  @analysis_final.counts plain_runtime noise_answers
  = Ok [ (py "Road Traffic / MRT", 2); (py "Religious Activities", 1);
         (py "Commercial Events" ++ 10%N :: py "(Busking, Festivals)", 0);
         (py "Construction /" ++ 10%N :: py "Renovation", 1) ].
Proof.
  rewrite (proj1 (@final_counts_per_keyword plain_runtime noise_answers)).
  reflexivity.
Defined.

Example missing_answer_divides_the_scripts :
  @analysis_1_descriptives.counts plain_runtime noise_answers
  = Raise AttributeError /\
  @analysis_final.counts plain_runtime noise_answers
  = @analysis_final.counts plain_runtime
      (filter (fun src => is_nan src = false) noise_answers).
Proof.
  apply (@noise_source_counts_agree plain_runtime noise_answers). reflexivity.
Defined.
